(** * The captioning trainer: training control loop and checkpoint store

    A shallow embedding of [training_utils/captioning_model_trainer.py]
    (class [Trainer]).  The neural model, the data loaders, the tokenizer and
    the scorer are collaborators of the trainer: they appear here as the
    fields of two type classes and stay uninterpreted.  Everything the
    trainer itself decides (the patience policy, the phase switch, what is
    written to and read from the checkpoint files, the SCST reward
    arithmetic, the keys of the scoring dictionaries, the scheduler steps)
    is modelled as the source has it. *)

From Stdlib Require Import ZArith Lia Ascii String QArith Qcanon.
From Stdlib Require Import Floats.PrimFloat.
From stdpp Require Import base option list strings gmap pretty numbers.

Set Warnings "-inexact-float".

Local Open Scope Z_scope.
Local Open Scope string_scope.

(** ** Exceptions and fallible computations *)

Inductive exn :=
| KeyError (key : string)
| TypeError (what : string)
| UnpicklingError (fname : string)
| ZeroDivisionError
| RuntimeError (what : string).

Inductive result (A : Type) :=
| Ok (a : A)
| Raise (e : exn).
Arguments Ok {A} a.
Arguments Raise {A} e.

#[global] Instance result_ret : MRet result := @Ok.
#[global] Instance result_bind : MBind result := λ A B f r,
  match r with
  | Ok a => f a
  | Raise e => Raise e
  end.

(** ** Python floats

    A Python [float] is an IEEE-754 binary64 number: Rocq's primitive
    [float].  [val_cider >= best_val_cider] is [geb]. *)

Definition geb (x y : float) : bool := PrimFloat.leb y x.

(** Conversion of a Python [int] to [float]; exact below [2^53]. *)
Fixpoint float_of_pos (p : positive) : float :=
  match p with
  | xH => 1%float
  | xO q => PrimFloat.mul 2%float (float_of_pos q)
  | xI q => PrimFloat.add (PrimFloat.mul 2%float (float_of_pos q)) 1%float
  end.

Definition float_of_Z (z : Z) : float :=
  match z with
  | Z0 => 0%float
  | Zpos p => float_of_pos p
  | Zneg p => PrimFloat.opp (float_of_pos p)
  end.

(** Python's [min(a, b)]: the second argument only when it is smaller. *)
Definition py_min (a b : float) : float :=
  if PrimFloat.ltb b a then b else a.

(** ** Carriers of the collaborators *)

Class Carriers := {
  tensor : Type;       (* a parameter tensor of the model *)
  rng_state : Type;    (* the state of one random generator *)
  adam_state : Type;   (* Adam's per-parameter moments and step counts *)
  adam_empty : adam_state;
  batch : Type;        (* what a data loader yields *)
  DataLoader : Type;
  scores : Type;       (* the mapping returned by the corpus scorer *)
}.

Section Store.
Context `{Carriers}.

(** [torch.optim.Adam]: hyper-parameters and per-parameter state.  Its
    [state_dict()] holds exactly this, and [load_state_dict] replaces it. *)
Record optimizer := {
  lr : float;
  betas : float * float;
  moments : adam_state;
}.

(** [Adam(params, lr=..., betas=...)]: a new optimizer has no moments. *)
Definition Adam (rate : float) (bs : float * float) : optimizer :=
  {| lr := rate; betas := bs; moments := adam_empty |}.

Definition default_betas : float * float := (0.9%float, 0.999%float).

(** [LambdaLR]: the initial rate of its optimizer and the step counter. *)
Record LambdaLR := {
  base_lr : float;
  last_epoch : Z;
}.

(** The four process-wide generators captured in a checkpoint. *)
Record rngs := {
  torch_rng : rng_state;
  cuda_rng : rng_state;
  numpy_rng : rng_state;
  random_rng : rng_state;
}.

(** ** Checkpoint files

    A checkpoint is the pickled Python dict; its values are dynamically
    typed. *)

Inductive value :=
| VBool (b : bool)
| VInt (n : Z)
| VFloat (x : float)
| VRng (r : rng_state)
| VStateDict (w : gmap string tensor)
| VOptim (o : optimizer)
| VSched (s : LambdaLR).

(** What a path of the file system holds. *)
Inductive node :=
| Directory
| Garbage                                  (* a file [torch.load] rejects *)
| Pickle (d : gmap string value).

(** ** The trainer object

    The attributes of [self] that [train] reads or writes, together with
    the two pieces of process state the methods act on: the global random
    generators and the disk.  [sched_bound] records the aliasing between
    [self.scheduler] and [self.optim]: the scheduler writes the learning
    rate of the optimizer it was constructed with, which is [self.optim]
    until [train] assigns a new optimizer. *)

Record Trainer := {
  model : gmap string tensor;
  optim : optimizer;
  scheduler : LambdaLR;
  sched_bound : bool;
  epoch : Z;
  rng : rngs;
  fs : gmap string node;
}.

Definition with_model (w : gmap string tensor) (t : Trainer) : Trainer :=
  {| model := w; optim := optim t; scheduler := scheduler t;
     sched_bound := sched_bound t; epoch := epoch t; rng := rng t;
     fs := fs t |}.

Definition with_optim (o : optimizer) (t : Trainer) : Trainer :=
  {| model := model t; optim := o; scheduler := scheduler t;
     sched_bound := sched_bound t; epoch := epoch t; rng := rng t;
     fs := fs t |}.

Definition with_scheduler (s : LambdaLR) (t : Trainer) : Trainer :=
  {| model := model t; optim := optim t; scheduler := s;
     sched_bound := sched_bound t; epoch := epoch t; rng := rng t;
     fs := fs t |}.

Definition with_sched_bound (b : bool) (t : Trainer) : Trainer :=
  {| model := model t; optim := optim t; scheduler := scheduler t;
     sched_bound := b; epoch := epoch t; rng := rng t; fs := fs t |}.

Definition with_epoch (e : Z) (t : Trainer) : Trainer :=
  {| model := model t; optim := optim t; scheduler := scheduler t;
     sched_bound := sched_bound t; epoch := e; rng := rng t; fs := fs t |}.

Definition with_rng (r : rngs) (t : Trainer) : Trainer :=
  {| model := model t; optim := optim t; scheduler := scheduler t;
     sched_bound := sched_bound t; epoch := epoch t; rng := r; fs := fs t |}.

Definition with_fs (f : gmap string node) (t : Trainer) : Trainer :=
  {| model := model t; optim := optim t; scheduler := scheduler t;
     sched_bound := sched_bound t; epoch := epoch t; rng := rng t; fs := f |}.

(** ** Paths *)

Definition starts_with_sep (s : string) : bool :=
  match s with
  | String c _ => bool_decide (c = "/"%char)
  | EmptyString => false
  end.

Fixpoint ends_with_sep (s : string) : bool :=
  match s with
  | EmptyString => false
  | String c EmptyString => bool_decide (c = "/"%char)
  | String _ rest => ends_with_sep rest
  end.

(** [os.path.join] on a POSIX system, one component at a time. *)
Definition path_join (path b : string) : string :=
  if starts_with_sep b then b
  else if bool_decide (path = "") || ends_with_sep path then path +:+ b
  else path +:+ "/" +:+ b.

Definition os_path_isfile (f : gmap string node) (fname : string) : bool :=
  match f !! fname with
  | Some Directory | None => false
  | Some _ => true
  end.

(** ** Reading a dynamically typed dict *)

Definition getitem (d : gmap string value) (k : string) : result value :=
  match d !! k with
  | Some v => Ok v
  | None => Raise (KeyError k)
  end.

Definition as_rng (k : string) (v : value) : result rng_state :=
  match v with VRng r => Ok r | _ => Raise (TypeError k) end.

Definition as_state_dict (k : string) (v : value)
  : result (gmap string tensor) :=
  match v with VStateDict w => Ok w | _ => Raise (TypeError k) end.

Definition as_bool (k : string) (v : value) : result bool :=
  match v with VBool b => Ok b | _ => Raise (TypeError k) end.

Definition as_int (k : string) (v : value) : result Z :=
  match v with VInt n => Ok n | _ => Raise (TypeError k) end.

Definition as_float (k : string) (v : value) : result float :=
  match v with VFloat x => Ok x | _ => Raise (TypeError k) end.

Definition as_optim (k : string) (v : value) : result optimizer :=
  match v with VOptim o => Ok o | _ => Raise (TypeError k) end.

Definition as_sched (k : string) (v : value) : result LambdaLR :=
  match v with VSched s => Ok s | _ => Raise (TypeError k) end.

Definition torch_load (fname : string) (n : node)
  : result (gmap string value) :=
  match n with
  | Pickle d => Ok d
  | Directory | Garbage => Raise (UnpicklingError fname)
  end.

(** [model.load_state_dict(sd, strict=False)]: every parameter of the model
    that the checkpoint names takes the checkpoint's tensor; parameters the
    checkpoint lacks keep their value and keys the model lacks are
    ignored. *)
Definition load_state_dict_lenient (sd w : gmap string tensor)
  : gmap string tensor :=
  map_imap (λ k old, Some (default old (sd !! k))) w.

End Store.

(** ** The collaborators

    Configuration values, the data loaders built by [__init__], the model,
    the vocabulary, the tokenizer and the scorer.  Tensors that enter the
    SCST loss are lists over [Qc]: exact rational arithmetic stands for the
    float32 arithmetic of finite values. *)

Class Collaborators `{Carriers} := {
  (* config *)
  checkpoint_path : string;
  model_name : string;
  using_features : string;
  warmup : Z;
  training_beam_size : Z;
  evaluating_beam_size : Z;
  (* data loaders *)
  train_dataloader : DataLoader;
  val_dataloader : DataLoader;
  train_dict_dataloader : DataLoader;
  val_dict_dataloader : DataLoader;
  test_dict_dataloader : option DataLoader;
  batch_size : DataLoader → Z;
  (* one pass over a shuffling loader: the batches, and the generators
     after drawing the permutation *)
  iterate : DataLoader → rngs → list batch * rngs;
  captions : batch → list (list string);          (* sample["captions"] *)
  (* model *)
  d_model : Z;
  float_pow : float → float → float;              (* Python's [**] on floats *)
  (* forward, zero_grad, NLL loss, backward, optim.step on one batch *)
  xe_step : gmap string tensor → optimizer → rngs → batch →
            gmap string tensor * adam_state * rngs;
  (* forward and NLL loss of one batch in evaluation mode: loss.item() *)
  nll_loss : gmap string tensor → batch → float;
  (* beam_search(out_size=1) followed by decode_caption(join_words=False) *)
  beam_search_eval : gmap string tensor → batch → Z → Z → list (list string);
  (* beam_search(out_size=beam) followed by decode_caption(join_words=True):
     the generated captions, row-major, and log_probs of shape
     (batch, beam, length) *)
  beam_search_train : gmap string tensor → rngs → batch → Z → Z →
                      list string * list (list (list Qc)) * rngs;
  (* loss.backward(); optim.step() for the SCST loss, whose gradient is
     determined by the generated sequences and their advantages *)
  scst_step : gmap string tensor → optimizer → batch → list string →
              list (list Qc) → gmap string tensor * adam_state;
  (* tokenizer and scorer *)
  tokenize_caption : string → string;
  compute_scores : gmap string (list string) → gmap string (list string) →
                   scores;
  CIDEr : scores → float;                         (* scores['CIDEr'] *)
  (* tokenizer_pool.map(tokenize, [caps_gen, caps_gt]) followed by
     train_cider.compute_score(caps_gt, caps_gen)[1] *)
  cider_reward : list (list string) → list string → list Qc;
}.

Section TrainerMethods.
Context `{Collaborators}.

(** *** [lambda_lr] and the scheduler *)

Definition lambda_lr (step : Z) : float :=
  let warm_up := warmup in
  let step := step + 1 in
  PrimFloat.mul
    (float_pow (float_of_Z d_model) (-0.5)%float)
    (py_min (float_pow (float_of_Z step) (-0.5)%float)
            (PrimFloat.mul (float_of_Z step)
                           (float_pow (float_of_Z warm_up) (-1.5)%float))).

(** [self.scheduler.step()]: the counter advances by one and the optimizer
    the scheduler was built on receives [base_lr * lambda_lr(last_epoch)]. *)
Definition scheduler_step (t : Trainer) : Trainer :=
  let s := scheduler t in
  let n := last_epoch s + 1 in
  let t' := with_scheduler {| base_lr := base_lr s; last_epoch := n |} t in
  if sched_bound t
  then with_optim {| lr := PrimFloat.mul (base_lr s) (lambda_lr n);
                     betas := betas (optim t);
                     moments := moments (optim t) |} t'
  else t'.

(** *** [train_xe] (lines 152-176) *)

Definition train_xe_batch (t : Trainer) (sample : batch) : Trainer :=
  let '(w, m, r) := xe_step (model t) (optim t) (rng t) sample in
  let o := {| lr := lr (optim t); betas := betas (optim t); moments := m |} in
  scheduler_step (with_rng r (with_optim o (with_model w t))).

Definition train_xe (t : Trainer) : Trainer :=
  let '(samples, r) := iterate train_dataloader (rng t) in
  foldl train_xe_batch (with_rng r t) samples.

(** *** The SCST reward arithmetic (lines 207-211) *)

Definition sum_Qc (l : list Qc) : Qc := foldr Qcplus 0%Qc l.

Definition Qc_of_nat (n : nat) : Qc := Q2Qc (inject_Z (Z.of_nat n)).

(** [torch.mean] of a one-dimensional tensor, over exact rationals that
    stand for finite float32 values.  The quotient is not rounded: the
    model agrees with float32 on a single entry ([x / 1] is [x]), which is
    where the properties below use it, and not on longer rows, where
    float32 rounds the sum and the quotient. *)
Definition mean (l : list Qc) : Qc := (sum_Qc l / Qc_of_nat (length l))%Qc.

(** [tensor.view(rows, cols)] of a flat tensor, for the two sizes
    [train_scst] passes: the batch size of the loader and the beam size,
    both positive where line 207 is reached.  A size of -1, which torch
    would infer from the number of entries, is not modelled and is
    refused like any other negative size. *)
Fixpoint chunks {A} (rows cols : nat) (l : list A) : list (list A) :=
  match rows with
  | O => []
  | S n => take cols l :: chunks n cols (drop cols l)
  end.

Definition view {A} (rows cols : Z) (l : list A) : result (list (list A)) :=
  if ((0 <=? rows) && (0 <=? cols) && (rows * cols =? Z.of_nat (length l)))%Z
  then Ok (chunks (Z.to_nat rows) (Z.to_nat cols) l)
  else Raise (RuntimeError "view").

(** [torch.mean(reward, dim=-1, keepdim=True)]: shape (batch, 1). *)
Definition mean_keepdim (m : list (list Qc)) : list (list Qc) :=
  (λ row : list Qc, [mean row]) <$> m.

(** [torch.mean(log_probs, -1)]: shape (batch, beam). *)
Definition mean_last (m : list (list (list Qc))) : list (list Qc) :=
  (λ rows : list (list Qc), mean <$> rows) <$> m.

(** [reward - reward_baseline], the baseline broadcast along the beam. *)
Definition sub_baseline (reward baseline : list (list Qc))
  : list (list Qc) :=
  zip_with (λ row b : list Qc, (λ x, x - default 0 (head b))%Qc <$> row)
           reward baseline.

(** [-a * b], elementwise on two (batch, beam) tensors. *)
Definition neg_mul (a b : list (list Qc)) : list (list Qc) :=
  zip_with (zip_with (λ x y, (- x * y)%Qc)) a b.

(** [loss.mean()] over all entries. *)
Definition mean_all (m : list (list Qc)) : Qc := mean (concat m).

Definition reward_baseline (reward : list (list Qc)) : list (list Qc) :=
  mean_keepdim reward.

Definition advantage (reward : list (list Qc)) : list (list Qc) :=
  sub_baseline reward (reward_baseline reward).

Definition scst_loss (log_probs : list (list (list Qc)))
    (reward : list (list Qc)) : Qc :=
  mean_all (neg_mul (mean_last log_probs) (advantage reward)).

(** *** [train_scst] (lines 178-220)

    Returns the trainer and the per-batch losses shown on the progress
    bar. *)

Definition train_scst_batch (acc : Trainer * list Qc) (sample : batch)
  : result (Trainer * list Qc) :=
  let '(t, shown) := acc in
  let bs := batch_size train_dict_dataloader in
  let '(caps_gen, log_probs, r) :=
    beam_search_train (model t) (rng t) sample bs training_beam_size in
  let caps_gt :=
    c ← captions sample; replicate (Z.to_nat training_beam_size) c in
  reward ← view bs training_beam_size (cider_reward caps_gt caps_gen);
  let loss := scst_loss log_probs reward in
  let '(w, m) :=
    scst_step (model t) (optim t) sample caps_gen (advantage reward) in
  let o := {| lr := lr (optim t); betas := betas (optim t); moments := m |} in
  Ok (with_rng r (with_optim o (with_model w t)), (shown ++ [loss])%list).

Fixpoint foldlM {A B} (f : A → B → result A) (a : A) (l : list B)
  : result A :=
  match l with
  | [] => Ok a
  | b :: l' => a' ← f a b; foldlM f a' l'
  end.

Definition train_scst (t : Trainer) : result (Trainer * list Qc) :=
  let '(samples, r) := iterate train_dict_dataloader (rng t) in
  foldlM train_scst_batch (with_rng r t, []) samples.

(** *** [evaluate_loss] (lines 100-123) *)

Definition evaluate_loss (dataloader : DataLoader) (t : Trainer)
  : result (Trainer * float) :=
  let '(samples, r) := iterate dataloader (rng t) in
  let running_loss :=
    foldl (λ acc s, PrimFloat.add acc (nll_loss (model t) s)) 0%float
          samples in
  if bool_decide (length samples = 0%nat) then Raise ZeroDivisionError
  else Ok (with_rng r t,
           PrimFloat.div running_loss
                         (float_of_Z (Z.of_nat (length samples)))).

(** *** [evaluate_metrics] (lines 125-150) *)

(** ['%d_%d' % (it, i)] *)
Definition sample_key (it i : nat) : string :=
  pretty it +:+ "_" +:+ pretty i.

(** [[k for k, g in itertools.groupby(gen_i)]] *)
Fixpoint groupby_keys (l : list string) : list string :=
  match l with
  | [] => []
  | k :: rest =>
      match rest with
      | k' :: _ => if bool_decide (k = k') then groupby_keys rest
                   else k :: groupby_keys rest
      | [] => [k]
      end
  end.

(** [' '.join(words)] *)
Fixpoint join_words (l : list string) : string :=
  match l with
  | [] => ""
  | [w] => w
  | w :: rest => w +:+ " " +:+ join_words rest
  end.

Definition enumerate {A} (l : list A) : list (nat * A) :=
  zip (seq 0 (length l)) l.

Definition caption_dicts : Type :=
  gmap string (list string) * gmap string (list string).

(** The inner loop over [zip(caps_gt, caps_gen)] of batch number [it]. *)
Definition add_batch (it : nat) (caps_gt : list (list string))
    (caps_gen : list (list string)) (acc : caption_dicts) : caption_dicts :=
  foldl (λ (a : caption_dicts) (e : nat * (list string * list string)),
           let '(gen, gts) := a in
           let '(i, (gts_i, gen_i)) := e in
           let gen_i := join_words (groupby_keys gen_i) in
           (<[sample_key it i := [gen_i]]> gen,
            <[sample_key it i := gts_i]> gts))
        acc (enumerate (zip caps_gt caps_gen)).

(** The outer loop: the pair [(gen, gts)] when the loader is exhausted. *)
Definition collect_captions (dataloader : DataLoader)
    (w : gmap string tensor) (samples : list batch) : caption_dicts :=
  foldl (λ (a : caption_dicts) (e : nat * batch),
           let '(it, sample) := e in
           let caps_gen :=
             beam_search_eval w sample (batch_size dataloader)
                              evaluating_beam_size in
           add_batch it (captions sample) caps_gen a)
        (∅, ∅) (enumerate samples).

(** Modelled from the spec: [evaluation.PTBTokenizer.tokenize] is not among
    the sources; the spec gives it as a mapping from ids to texts turned
    into a mapping from the same ids to tokenized texts. *)
Definition PTBTokenizer_tokenize (d : gmap string (list string))
  : gmap string (list string) :=
  (λ caps : list string, tokenize_caption <$> caps) <$> d.

(** The two mappings handed to [compute_scores]: [(gts, gen)]. *)
Definition scoring_inputs (dataloader : DataLoader)
    (w : gmap string tensor) (samples : list batch) : caption_dicts :=
  let '(gen, gts) := collect_captions dataloader w samples in
  (PTBTokenizer_tokenize gts, PTBTokenizer_tokenize gen).

Definition evaluate_metrics (dataloader : DataLoader) (t : Trainer)
  : Trainer * scores :=
  let '(samples, r) := iterate dataloader (rng t) in
  let '(gts, gen) := scoring_inputs dataloader (model t) samples in
  (with_rng r t, compute_scores gts gen).

(** *** The two checkpoint slots

    [os.path.join(checkpoint_path, f"{model.name}_using_{using_features}",
    "last_model.pth")] and the same with ["best_model.pth"]. *)

Definition checkpoint_dir : string :=
  path_join checkpoint_path (model_name +:+ "_using_" +:+ using_features).

Definition last_model_path : string := path_join checkpoint_dir "last_model.pth".
Definition best_model_path : string := path_join checkpoint_dir "best_model.pth".

(** *** [load_checkpoint] (lines 227-250)

    The generators and the model are overwritten; the optimizer and the
    scheduler are only handed back inside the returned dict. *)

Definition load_checkpoint (fname : string) (t : Trainer)
  : result (Trainer * option (gmap string value)) :=
  match fs t !! fname with
  | None => Ok (t, None)                       (* not os.path.exists(fname) *)
  | Some n =>
      checkpoint ← torch_load fname n;
      r_torch ← getitem checkpoint "torch_rng_state" ≫= as_rng "torch_rng_state";
      r_cuda ← getitem checkpoint "cuda_rng_state" ≫= as_rng "cuda_rng_state";
      r_numpy ← getitem checkpoint "numpy_rng_state" ≫= as_rng "numpy_rng_state";
      r_random ← getitem checkpoint "random_rng_state" ≫= as_rng "random_rng_state";
      sd ← getitem checkpoint "state_dict" ≫= as_state_dict "state_dict";
      let t' :=
        with_model (load_state_dict_lenient sd (model t))
          (with_rng {| torch_rng := r_torch; cuda_rng := r_cuda;
                       numpy_rng := r_numpy; random_rng := r_random |} t) in
      (* the f-string of the print statement *)
      _ ← getitem checkpoint "epoch";
      _ ← getitem checkpoint "val_loss";
      _ ← getitem checkpoint "best_val_cider";
      _ ← getitem checkpoint "best_test_cider";
      (* the returned dict *)
      v_use_rl ← getitem checkpoint "use_rl";
      v_best_val ← getitem checkpoint "best_val_cider";
      v_best_test ← getitem checkpoint "best_test_cider";
      v_patience ← getitem checkpoint "patience";
      v_epoch ← getitem checkpoint "epoch";
      v_optimizer ← getitem checkpoint "optimizer";
      v_scheduler ← getitem checkpoint "scheduler";
      Ok (t', Some (<["use_rl" := v_use_rl]>
                   (<["best_val_cider" := v_best_val]>
                   (<["best_test_cider" := v_best_test]>
                   (<["patience" := v_patience]>
                   (<["epoch" := v_epoch]>
                   (<["optimizer" := v_optimizer]>
                   (<["scheduler" := v_scheduler]> ∅))))))))
  end.

(** *** [save_checkpoint] (lines 252-269)

    The directory of the slots is taken to exist, so that [torch.save]
    succeeds. *)

Definition dict_for_saving (t : Trainer) : gmap string value :=
  <["torch_rng_state" := VRng (torch_rng (rng t))]>
  (<["cuda_rng_state" := VRng (cuda_rng (rng t))]>
  (<["numpy_rng_state" := VRng (numpy_rng (rng t))]>
  (<["random_rng_state" := VRng (random_rng (rng t))]>
  (<["epoch" := VInt (epoch t)]>
  (<["state_dict" := VStateDict (model t)]>
  (<["optimizer" := VOptim (optim t)]>
  (<["scheduler" := VSched (scheduler t)]> ∅))))))).

(** The loop [dict_for_saving[key] = value] over [dict_for_updating]: the
    caller's entries win. *)
Definition checkpoint_dict (dict_for_updating : gmap string value)
    (t : Trainer) : gmap string value :=
  dict_for_updating ∪ dict_for_saving t.

Definition save_checkpoint (dict_for_updating : gmap string value)
    (t : Trainer) : Trainer :=
  with_fs (<[last_model_path := Pickle (checkpoint_dict dict_for_updating t)]>
             (fs t)) t.

(** [shutil.copyfile(src, dst)] *)
Definition copyfile (src dst : string) (t : Trainer) : result Trainer :=
  match fs t !! src with
  | Some Directory | None => Raise (RuntimeError "copyfile")
  | Some n => Ok (with_fs (<[dst := n]> (fs t)) t)
  end.

(** *** [train] (lines 271-355) *)

(** The local variables of [train] that survive from one epoch to the
    next. *)
Record loop_vars := {
  use_rl : bool;
  best_val_cider : float;
  best_test_cider : float;
  patience : Z;
}.

Definition fresh_vars : loop_vars :=
  {| use_rl := false; best_val_cider := 0%float; best_test_cider := 0%float;
     patience := 0 |}.

(** Lines 273-286.  The scalars of a checkpoint are read at the types
    [train] itself stores them with; an entry of another dynamic type is
    reported as a [TypeError]. *)
Definition train_init (checkpoint_filename : option string) (t : Trainer)
  : result (Trainer * loop_vars) :=
  match checkpoint_filename with
  | Some fname =>
      if os_path_isfile (fs t) fname then
        '(t1, loaded) ← load_checkpoint fname t;
        match loaded with
        | None => Raise (TypeError "checkpoint")
        | Some checkpoint =>
            u ← getitem checkpoint "use_rl" ≫= as_bool "use_rl";
            bv ← getitem checkpoint "best_val_cider" ≫= as_float "best_val_cider";
            bt ← getitem checkpoint "best_test_cider" ≫= as_float "best_test_cider";
            p ← getitem checkpoint "patience" ≫= as_int "patience";
            e ← getitem checkpoint "epoch" ≫= as_int "epoch";
            o ← getitem checkpoint "optimizer" ≫= as_optim "optimizer";
            s ← getitem checkpoint "scheduler" ≫= as_sched "scheduler";
            Ok (with_scheduler s (with_optim o (with_epoch e t1)),
                {| use_rl := u; best_val_cider := bv; best_test_cider := bt;
                   patience := p |})
        end
      else Ok (t, fresh_vars)
  | None => Ok (t, fresh_vars)
  end.

(** Lines 289-303: the training pass of the phase and the evaluations.
    Returns the trainer, [val_loss] and [val_cider]. *)
Definition epoch_passes (t : Trainer) (v : loop_vars)
  : result (Trainer * float * float) :=
  t1 ← (if negb (use_rl v) then Ok (train_xe t)
        else '(t', _) ← train_scst t; Ok t');
  '(t2, val_loss) ← evaluate_loss val_dataloader t1;
  let '(t3, scores) := evaluate_metrics val_dict_dataloader t2 in
  let val_cider := CIDEr scores in
  let t4 := match test_dict_dataloader with
            | Some dl => fst (evaluate_metrics dl t3)
            | None => t3
            end in
  Ok (t4, val_loss, val_cider).

(** What one epoch decided. *)
Record decision := {
  vars : loop_vars;
  best : bool;
  switch_to_rl : bool;
  exit_train : bool;
}.

(** Lines 305-326, without the assignment to [self.optim]. *)
Definition policy (v : loop_vars) (val_cider : float) : decision :=
  let '(best_val, pat, is_best) :=
    if geb val_cider (best_val_cider v) then (val_cider, 0, true)
    else (best_val_cider v, patience v + 1, false) in
  if (pat =? 5)%Z then
    if negb (use_rl v) then
      {| vars := {| use_rl := true; best_val_cider := best_val;
                    best_test_cider := best_test_cider v; patience := 0 |};
         best := is_best; switch_to_rl := true; exit_train := false |}
    else
      {| vars := {| use_rl := use_rl v; best_val_cider := best_val;
                    best_test_cider := best_test_cider v; patience := pat |};
         best := is_best; switch_to_rl := false; exit_train := true |}
  else
    {| vars := {| use_rl := use_rl v; best_val_cider := best_val;
                  best_test_cider := best_test_cider v; patience := pat |};
       best := is_best; switch_to_rl := false; exit_train := false |}.

(** The argument of [save_checkpoint] at line 333. *)
Definition dict_for_updating (val_loss val_cider : float) (v : loop_vars)
  : gmap string value :=
  <["val_loss" := VFloat val_loss]>
  (<["val_cider" := VFloat val_cider]>
  (<["patience" := VInt (patience v)]>
  (<["best_val_cider" := VFloat (best_val_cider v)]>
  (<["best_test_cider" := VFloat (best_test_cider v)]>
  (<["use_rl" := VBool (use_rl v)]> ∅))))).

(** [Adam(self.model.parameters(), lr=5e-6)] at line 322; from then on the
    scheduler no longer drives [self.optim]. *)
Definition rl_optimizer : optimizer := Adam 5e-6%float default_betas.

(** What one iteration of the loop reports. *)
Record epoch_report := {
  val_cider : float;
  decided : decision;
  saved : gmap string value;          (* the dict written to the last slot *)
}.

(** Lines 314-353, after the passes: optimizer replacement, rollback,
    persistence, promotion and the epoch counter. *)
Definition epoch_end (t : Trainer) (val_loss cider : float) (d : decision)
  : result (Trainer * epoch_report) :=
  let t1 := if switch_to_rl d
            then with_sched_bound false (with_optim rl_optimizer t)
            else t in
  t2 ← (if switch_to_rl d && negb (best d)
        then '(t', _) ← load_checkpoint best_model_path t1; Ok t'
        else Ok t1);
  let upd := dict_for_updating val_loss cider (vars d) in
  let t3 := save_checkpoint upd t2 in
  t4 ← (if best d then copyfile last_model_path best_model_path t3
        else Ok t3);
  let t5 := if exit_train d then t4 else with_epoch (epoch t4 + 1) t4 in
  Ok (t5, {| val_cider := cider; decided := d;
             saved := checkpoint_dict upd t2 |}).

(** One iteration of [while True]. *)
Definition train_epoch (t : Trainer) (v : loop_vars)
  : result (Trainer * loop_vars * epoch_report) :=
  '(t1, val_loss, cider) ← epoch_passes t v;
  let d := policy v cider in
  '(t2, report) ← epoch_end t1 val_loss cider d;
  Ok (t2, vars d, report).

(** How a run stands after some iterations. *)
Inductive status :=
| Exited                   (* [break] was reached *)
| Raised (e : exn)         (* an exception left [train] *)
| Running.                 (* still looping when the fuel ran out *)

Record run := {
  reports : list epoch_report;
  outcome : status;
  trainer : Trainer;
  locals : loop_vars;
}.

(** The loop, cut off after [fuel] iterations.  For a run that raised,
    [trainer] and [locals] are those the failing iteration started from:
    what that iteration had already changed of [self] before the exception
    is not recorded. *)
Fixpoint train_loop (fuel : nat) (t : Trainer) (v : loop_vars) : run :=
  match fuel with
  | O => {| reports := []; outcome := Running; trainer := t; locals := v |}
  | S fuel' =>
      match train_epoch t v with
      | Raise e =>
          {| reports := []; outcome := Raised e; trainer := t; locals := v |}
      | Ok (t', v', report) =>
          if exit_train (decided report)
          then {| reports := [report]; outcome := Exited; trainer := t';
                  locals := v' |}
          else
            let r := train_loop fuel' t' v' in
            {| reports := report :: reports r; outcome := outcome r;
               trainer := trainer r; locals := locals r |}
      end
  end.

Definition train (checkpoint_filename : option string) (fuel : nat)
    (t : Trainer) : run :=
  match train_init checkpoint_filename t with
  | Raise e =>
      {| reports := []; outcome := Raised e; trainer := t;
         locals := fresh_vars |}
  | Ok (t', v) => train_loop fuel t' v
  end.

End TrainerMethods.

(** ** Prediction and export

    [get_predictions] and [convert_results] (lines 357-413), and the
    checkpoint methods of [trainers/base_trainer.py]. *)

(** What [get_predictions] iterates over: the samples of a
    [DictionaryDataset] and the decoding of one of them. *)
Class PredictionSource `{Collaborators} := {
  item : Type;
  image_key : Type;
  image_id : item → image_key;                   (* sample.image_id *)
  filename : item → string;                      (* sample.filename *)
  item_captions : item → list (list string);     (* sample.captions *)
  (* beam_search(out_size=1) on one sample followed by
     decode_caption(join_words=False) *)
  beam_search_item : gmap string tensor → item → Z → list (list string);
}.

Section Predictions.
Context `{PredictionSource}.

(** One entry of the list [get_predictions] returns. *)
Record prediction := {
  p_image_id : image_key;
  p_filename : string;
  p_gens : gmap string (list string);
  p_gts : gmap string (list string);
  p_scores : option scores;
}.

(** The body of the loop over the dataset (lines 365-396) for sample number
    [it]: the two dicts start empty at every sample. *)
Definition predict_item (w : gmap string tensor) (get_scores : bool)
    (it : nat) (sample : item) : prediction :=
  let caps_gt := item_captions sample in
  let caps_gen := beam_search_item w sample evaluating_beam_size in
  let '(gens, gts) := add_batch it caps_gt caps_gen (∅, ∅) in
  let gts := PTBTokenizer_tokenize gts in
  let gens := PTBTokenizer_tokenize gens in
  {| p_image_id := image_id sample;
     p_filename := filename sample;
     p_gens := gens;
     p_gts := gts;
     p_scores := if get_scores then Some (compute_scores gts gens)
                 else None |}.

Definition get_predictions (dataset : list item)
    (checkpoint_filename : option string) (get_scores : bool) (t : Trainer)
  : result (Trainer * list prediction) :=
  t1 ← match checkpoint_filename with
       | Some fname =>
           if os_path_isfile (fs t) fname
           then '(t', _) ← load_checkpoint fname t; Ok t'
           else Ok t
       | None => Ok t
       end;
  Ok (t1, (λ e : nat * item, predict_item (model t1) get_scores e.1 e.2)
            <$> enumerate dataset).

End Predictions.

(** *** [convert_results] (lines 402-413) *)

(** A JSON value as [json.load] returns it. *)
#[local] Unset Elimination Schemes.
Inductive json :=
| JNull
| JBool (b : bool)
| JNumber (n : Z)
| JFloat (x : float)
| JString (s : string)
| JArray (l : list json)
| JObject (o : list (string * json)).
#[local] Set Elimination Schemes.

(** What [convert_results] reads of an entry of [results]: its filename
    and [list(item["gens"].values())], the values of the dict of generated
    captions in insertion order. *)
Record result_entry := {
  e_filename : string;
  e_gens_values : list (list string);
}.

Inductive convert_error :=
| ConvertKeyError (key : string)      (* sample_item["id"] is missing *)
| ConvertIndexError.                  (* generated_captions[0][0] *)

(** [sample_item["id"] == item["filename"]], the right side a [str]. *)
Definition json_eq_str (j : json) (s : string) : bool :=
  match j with
  | JString s' => bool_decide (s' = s)
  | _ => false
  end.

(** The inner loop over [results] for one [sample_item]. *)
Fixpoint fill_item (sample_item : gmap string json)
    (results : list result_entry)
  : convert_error + gmap string json :=
  match results with
  | [] => inr sample_item
  | entry :: rest =>
      match sample_item !! "id" with
      | None => inl (ConvertKeyError "id")
      | Some id =>
          if json_eq_str id (e_filename entry) then
            match e_gens_values entry with
            | (caption :: _) :: _ =>
                inr (<["captions" := JString caption]> sample_item)
            | _ => inl ConvertIndexError
            end
          else fill_item sample_item rest
      end
  end.

(** The outer loop: the array that is then dumped. *)
Fixpoint fill_items (sample_json_data : list (gmap string json))
    (results : list result_entry)
  : convert_error + list (gmap string json) :=
  match sample_json_data with
  | [] => inr []
  | sample_item :: rest =>
      match fill_item sample_item results with
      | inl e => inl e
      | inr filled =>
          match fill_items rest results with
          | inl e => inl e
          | inr filled_rest => inr (filled :: filled_rest)
          end
      end
  end.

(** The file [convert_results] writes and the array it writes there. *)
Definition convert_results `{Collaborators}
    (sample_json_data : list (gmap string json))
    (results : list result_entry) (split : string)
  : convert_error + string * list (gmap string json) :=
  match fill_items sample_json_data results with
  | inl e => inl e
  | inr filled =>
      inr (path_join checkpoint_dir (split +:+ "_results.json"), filled)
  end.

(** *** [BaseTrainer.load_checkpoint] and [BaseTrainer.save_checkpoint]
    ([trainers/base_trainer.py], lines 119-153)

    The base class keeps its files under
    [os.path.join(CHECKPOINT_PATH, MODEL.NAME)] and returns the whole
    checkpoint from [load_checkpoint].  [self.epoch], which
    [save_checkpoint] reads, is an attribute the subclass provides. *)

Section BaseTrainer.
Context `{Collaborators}.

Definition base_checkpoint_path : string :=
  path_join checkpoint_path model_name.

Definition base_last_model_path : string :=
  path_join base_checkpoint_path "last_model.pth".

Definition base_load_checkpoint (fname : string) (t : Trainer)
  : result (Trainer * option (gmap string value)) :=
  match fs t !! fname with
  | None => Ok (t, None)
  | Some n =>
      checkpoint ← torch_load fname n;
      r_torch ← getitem checkpoint "torch_rng_state" ≫= as_rng "torch_rng_state";
      r_cuda ← getitem checkpoint "cuda_rng_state" ≫= as_rng "cuda_rng_state";
      r_numpy ← getitem checkpoint "numpy_rng_state" ≫= as_rng "numpy_rng_state";
      r_random ← getitem checkpoint "random_rng_state" ≫= as_rng "random_rng_state";
      sd ← getitem checkpoint "state_dict" ≫= as_state_dict "state_dict";
      let t' :=
        with_model (load_state_dict_lenient sd (model t))
          (with_rng {| torch_rng := r_torch; cuda_rng := r_cuda;
                       numpy_rng := r_numpy; random_rng := r_random |} t) in
      _ ← getitem checkpoint "epoch";          (* the log line *)
      Ok (t', Some checkpoint)
  end.

Definition base_save_checkpoint (dict_for_updating : gmap string value)
    (t : Trainer) : Trainer :=
  with_fs (<[base_last_model_path :=
               Pickle (checkpoint_dict dict_for_updating t)]> (fs t)) t.

End BaseTrainer.

(** ** A small concrete set of collaborators

    Used to run the trainer on explicit inputs.  The model has a single
    parameter that counts the optimizer steps taken; it generates the
    reference caption (with a stuttered word) while [good] holds of that
    count, and another caption otherwise.  The scorer answers 0.1 when every
    generated caption equals its reference and 0.05 when not.  Every loader
    yields batches of two samples with one reference caption each; the
    validation loaders hold one batch, the training loaders three and two. *)

Module Toy.

Definition carriers : Carriers :=
  {| tensor := Z; rng_state := nat; adam_state := Z; adam_empty := 0%Z;
     batch := list (list string); DataLoader := list (list (list string));
     scores := float |}.

Definition two_samples : list (list string) := [["a dog"]; ["a dog"]].

Definition steps (w : gmap string Z) : Z := default 0%Z (w !! "steps").

Definition draw (r : @rngs carriers) : @rngs carriers :=
  @Build_rngs carriers (S (@torch_rng carriers r)) (@cuda_rng carriers r)
              (@numpy_rng carriers r) (@random_rng carriers r).

Definition toy_pow (x y : float) : float :=
  if PrimFloat.eqb y (-0.5)%float then PrimFloat.div 1%float (PrimFloat.sqrt x)
  else PrimFloat.div 1%float (PrimFloat.mul x (PrimFloat.sqrt x)).

Definition collaborators (good : Z → bool) : @Collaborators carriers :=
  @Build_Collaborators carriers
    "saved_models"                                  (* checkpoint_path *)
    "m2_transformer"                                (* model_name *)
    "region"                                        (* using_features *)
    10000                                           (* warmup *)
    2                                               (* training_beam_size *)
    3                                               (* evaluating_beam_size *)
    [two_samples; two_samples; two_samples]         (* train_dataloader *)
    [two_samples]                                   (* val_dataloader *)
    [two_samples; two_samples]                      (* train_dict_dataloader *)
    [two_samples]                                   (* val_dict_dataloader *)
    None                                            (* test_dict_dataloader *)
    (λ _, 2)                                        (* batch_size *)
    (λ dl r, (dl, draw r))                          (* iterate *)
    (λ b, b)                                        (* captions *)
    512                                             (* d_model *)
    toy_pow                                         (* float_pow *)
    (λ w o r _,                                     (* xe_step *)
       (<["steps" := steps w + 1]> w, @moments carriers o + 1, r))
    (λ _ _, 1.5%float)                              (* nll_loss *)
    (λ w b _ _,                                     (* beam_search_eval *)
       (λ _ : list string,
          if good (steps w) then ["a"; "a"; "dog"] else ["a"; "cat"]) <$> b)
    (λ w r b bs beam,                               (* beam_search_train *)
       (replicate (Z.to_nat (bs * beam)) "a dog",
        replicate (Z.to_nat bs) (replicate (Z.to_nat beam) [Q2Qc (-1)]), r))
    (λ w o _ _ _,                                   (* scst_step *)
       (<["steps" := steps w + 1]> w, @moments carriers o + 1))
    (λ s, s)                                        (* tokenize_caption *)
    (λ gts gen,                                     (* compute_scores *)
       if bool_decide (gen = gts) then 0.1%float else 0.05%float)
    (λ s, s)                                        (* CIDEr *)
    (λ _ gen, (λ _ : string, Q2Qc (1 # 2)) <$> gen). (* cider_reward *)

(** The trainer as [__init__] leaves it, on an empty checkpoint
    directory. *)
Definition init : @Trainer carriers :=
  @Build_Trainer carriers
     {["steps" := 0%Z]}
     (@Adam carriers 1%float (0.9%float, 0.98%float))
     {| base_lr := 1%float; last_epoch := 0 |}
     true
     0
     (@Build_rngs carriers 0%nat 0%nat 0%nat 0%nat)
     ∅.

(** The model is right after the first epoch only. *)
Definition scripted : @Collaborators carriers :=
  collaborators (λ n, (n <=? 3)%Z).

(** The model is right at every epoch. *)
Definition steady : @Collaborators carriers := collaborators (λ _, true).

End Toy.


(** A dataset for [get_predictions] over the collaborators above: a sample
    is its file name with its reference captions, and its image id is the
    length of the file name. *)
Module ToyExport.

Definition source (good : Z → bool)
  : @PredictionSource Toy.carriers (Toy.collaborators good) :=
  @Build_PredictionSource Toy.carriers (Toy.collaborators good)
    (string * list (list string))                   (* item *)
    nat                                             (* image_key *)
    (λ s, String.length s.1)                        (* image_id *)
    (λ s, s.1)                                      (* filename *)
    (λ s, s.2)                                      (* item_captions *)
    (λ w _ _,                                       (* beam_search_item *)
       [if good (Toy.steps w) then ["a"; "a"; "dog"] else ["a"; "cat"]]).

Definition dataset : list (string * list (list string)) :=
  [("1.jpg", [["a dog"]]); ("22.jpg", [["a dog"]; ["the dog"]])].

(** A submission template of three records; the last has no counterpart
    among the predictions. *)
Definition template : list (gmap string json) :=
  [ {["id" := JString "22.jpg"]};
    <["captions" := JString "old"]> {["id" := JString "1.jpg"]};
    {["id" := JString "333.jpg"]} ].

Definition results : list result_entry :=
  [ {| e_filename := "1.jpg"; e_gens_values := [["a dog"]] |};
    {| e_filename := "22.jpg"; e_gens_values := [["a cat"]; ["x"]] |};
    {| e_filename := "22.jpg"; e_gens_values := [["later"]] |} ].

End ToyExport.

(** The collaborators of [Toy.steady] with an empty validation loader. *)
Module ToyEmpty.

Definition collaborators : @Collaborators Toy.carriers :=
  let c := Toy.steady in
  @Build_Collaborators Toy.carriers
    (@checkpoint_path _ c) (@model_name _ c) (@using_features _ c)
    (@warmup _ c) (@training_beam_size _ c) (@evaluating_beam_size _ c)
    (@train_dataloader _ c)
    []                                              (* val_dataloader *)
    (@train_dict_dataloader _ c) (@val_dict_dataloader _ c)
    (@test_dict_dataloader _ c) (@batch_size _ c) (@iterate _ c)
    (@captions _ c) (@d_model _ c) (@float_pow _ c) (@xe_step _ c)
    (@nll_loss _ c) (@beam_search_eval _ c) (@beam_search_train _ c)
    (@scst_step _ c) (@tokenize_caption _ c) (@compute_scores _ c)
    (@CIDEr _ c) (@cider_reward _ c).

End ToyEmpty.

(** * Properties *)

(** ** The specification's reading of the patience policy

    Written from the specification (section 4.1, steps 4 and 5), not from
    the code: a controller with a phase, the best metric so far and a
    patience counter, stepped by one validation metric. *)

Inductive phase := SUPERVISED | REINFORCEMENT.




Definition phase_of (rl : bool) : phase :=
  if rl then REINFORCEMENT else SUPERVISED.



(** The (phase, patience) pair an epoch report stands for. *)
Definition phase_patience `{Carriers} (e : epoch_report) : phase * Z :=
  (phase_of (use_rl (vars (decided e))), patience (vars (decided e))).

(** The trainer on which the end of an epoch persists: the one the passes
    left, with the RL optimizer and the rolled-back weights at a switch. *)
Definition persisted_from `{Collaborators} (t t2 : Trainer) (d : decision)
  : Prop :=
  if switch_to_rl d
  then if best d
       then t2 = with_sched_bound false (with_optim rl_optimizer t)
       else ∃ o, load_checkpoint best_model_path
                   (with_sched_bound false (with_optim rl_optimizer t))
                 = Ok (t2, o)
  else t2 = t.

(** What the last slot records about patience and phase. *)
Definition recorded `{Carriers} (e : epoch_report) (p : Z) (u : bool)
  : Prop :=
  saved e !! "patience" = Some (VInt p)
  ∧ saved e !! "use_rl" = Some (VBool u).

(** A tensor of shape (batch, beam) whose entries are all zero. *)
Definition all_zero (m : list (list Qc)) : Prop :=
  Forall (Forall (λ y, y = 0%Qc)) m.

(** The best slot holds a checkpoint whose validation CIDEr is the best
    validation CIDEr in the locals of [train]. *)
Definition best_slot_current `{Collaborators} (t : Trainer) (v : loop_vars)
  : Prop :=
  ∃ c, fs t !! best_model_path = Some (Pickle c)
       ∧ c !! "val_cider" = Some (VFloat (best_val_cider v))
       ∧ c !! "best_val_cider" = Some (VFloat (best_val_cider v)).

(** No two neighbours of the list are equal. *)
Fixpoint adjacent_distinct (l : list string) : Prop :=
  match l with
  | k :: (k' :: _) as rest => k ≠ k' ∧ adjacent_distinct rest
  | _ => True
  end.

(** The string has no underscore. *)
Fixpoint underscore_free (s : string) : Prop :=
  match s with
  | EmptyString => True
  | String c rest => c ≠ "_"%char ∧ underscore_free rest
  end.

(** The number of epochs without improvement the loop still allows: up to
    the threshold in the RL phase, and once more up to it after the switch
    in the supervised phase. *)
Definition epochs_left (v : loop_vars) : Z :=
  if use_rl v then 5 - patience v else 10 - patience v.

(** ** Keys of a checkpoint *)

(** The keys [save_checkpoint] fills in from the trainer itself. *)
Definition captured_keys : list string :=
  ["torch_rng_state"; "cuda_rng_state"; "numpy_rng_state"; "random_rng_state";
   "epoch"; "state_dict"; "optimizer"; "scheduler"].

(** The keys [load_checkpoint] reads and [save_checkpoint] does not fill
    in: the caller of [save_checkpoint] has to supply them. *)
Definition supplied_keys : list string :=
  ["val_loss"; "best_val_cider"; "best_test_cider"; "patience"; "use_rl"].

(** ** Tactics for fallible code and for dict lookups *)

Ltac unbind :=
  unfold mbind, result_bind, mret, result_ret in *.

Ltac dict_lookup :=
  repeat first
    [ rewrite lookup_insert_eq
    | rewrite lookup_insert_ne by (intro; discriminate)
    | rewrite lookup_empty ].

(** ** Paths of the two slots *)

Lemma string_app_inv_head (p a b : string) : p +:+ a = p +:+ b → a = b.
Proof.
  induction p as [|c p IH]; simpl; [done|].
  intros E. injection E as E. by apply IH.
Qed.

Section Properties.
Context `{Collaborators}.

Lemma last_best_distinct : last_model_path ≠ best_model_path.
Proof.
  unfold last_model_path, best_model_path, path_join. simpl starts_with_sep.
  cbv iota. destruct (_ || _); intros E.
  - apply string_app_inv_head in E. discriminate.
  - apply string_app_inv_head in E. discriminate.
Qed.

(** ** Frame lemmas: what the passes leave alone *)

Lemma scheduler_step_frame (t : Trainer) :
  epoch (scheduler_step t) = epoch t ∧ fs (scheduler_step t) = fs t
  ∧ last_epoch (scheduler (scheduler_step t)) = last_epoch (scheduler t) + 1.
Proof. unfold scheduler_step. by destruct (sched_bound t). Qed.

Lemma train_xe_batch_frame (t : Trainer) (sample : batch) :
  epoch (train_xe_batch t sample) = epoch t
  ∧ fs (train_xe_batch t sample) = fs t
  ∧ last_epoch (scheduler (train_xe_batch t sample))
    = last_epoch (scheduler t) + 1.
Proof.
  unfold train_xe_batch.
  destruct (xe_step _ _ _ _) as [[w m] r].
  match goal with
  | |- context [scheduler_step ?x] =>
      destruct (scheduler_step_frame x) as (-> & -> & ->)
  end.
  done.
Qed.

Lemma train_xe_batches_frame (samples : list batch) (t : Trainer) :
  epoch (foldl train_xe_batch t samples) = epoch t
  ∧ fs (foldl train_xe_batch t samples) = fs t
  ∧ last_epoch (scheduler (foldl train_xe_batch t samples))
    = last_epoch (scheduler t) + Z.of_nat (length samples).
Proof.
  revert t. induction samples as [|b l IH]; intros t; simpl.
  - split_and!; [done..|lia].
  - destruct (IH (train_xe_batch t b)) as (-> & -> & ->).
    destruct (train_xe_batch_frame t b) as (-> & -> & ->).
    split_and!; [done..|lia].
Qed.

Lemma train_xe_frame (t : Trainer) :
  epoch (train_xe t) = epoch t ∧ fs (train_xe t) = fs t.
Proof.
  unfold train_xe. destruct (iterate _ _) as [samples r].
  destruct (train_xe_batches_frame samples (with_rng r t)) as (-> & -> & _).
  done.
Qed.

Lemma train_scst_batch_frame (acc acc' : Trainer * list Qc) (sample : batch) :
  train_scst_batch acc sample = Ok acc' →
  epoch acc'.1 = epoch acc.1 ∧ fs acc'.1 = fs acc.1
  ∧ scheduler acc'.1 = scheduler acc.1.
Proof.
  unfold train_scst_batch. destruct acc as [t shown].
  destruct (beam_search_train _ _ _ _ _) as [[caps_gen log_probs] r].
  destruct (view _ _ _) as [reward|e]; unbind; [|done].
  destruct (scst_step _ _ _ _ _) as [w m].
  intros [= <-]. done.
Qed.

Lemma train_scst_batches_frame (samples : list batch)
    (acc acc' : Trainer * list Qc) :
  foldlM train_scst_batch acc samples = Ok acc' →
  epoch acc'.1 = epoch acc.1 ∧ fs acc'.1 = fs acc.1
  ∧ scheduler acc'.1 = scheduler acc.1.
Proof.
  revert acc. induction samples as [|b l IH]; intros acc; simpl.
  - by intros [= <-].
  - destruct (train_scst_batch acc b) as [acc1|e] eqn:E; unbind; [|done].
    intros E'. apply IH in E' as (-> & -> & ->).
    by apply train_scst_batch_frame in E.
Qed.

Lemma train_scst_frame (t t' : Trainer) (shown : list Qc) :
  train_scst t = Ok (t', shown) →
  epoch t' = epoch t ∧ fs t' = fs t ∧ scheduler t' = scheduler t.
Proof.
  unfold train_scst. destruct (iterate _ _) as [samples r].
  intros E. by apply train_scst_batches_frame in E.
Qed.

Lemma evaluate_loss_frame (dl : DataLoader) (t t' : Trainer) (x : float) :
  evaluate_loss dl t = Ok (t', x) → t' = with_rng (rng t') t.
Proof.
  unfold evaluate_loss. destruct (iterate _ _) as [samples r].
  case_bool_decide; [done|]. by intros [= <- _].
Qed.

Lemma evaluate_metrics_frame (dl : DataLoader) (t : Trainer) :
  (evaluate_metrics dl t).1 = with_rng (rng (evaluate_metrics dl t).1) t.
Proof.
  unfold evaluate_metrics. destruct (iterate _ _) as [samples r].
  by destruct (scoring_inputs _ _ _).
Qed.

(** The passes of an epoch change neither the epoch counter nor the disk,
    and they leave the model, the optimizer and the scheduler as the
    training pass left them. *)
Lemma epoch_passes_frame (t t1 : Trainer) (v : loop_vars) (x c : float) :
  epoch_passes t v = Ok (t1, x, c) →
  epoch t1 = epoch t ∧ fs t1 = fs t.
Proof.
  unfold epoch_passes. unbind.
  destruct (negb (use_rl v)).
  - destruct (evaluate_loss _ _) as [[t2 l]|e] eqn:E; [|done].
    apply evaluate_loss_frame in E.
    pose proof (evaluate_metrics_frame val_dict_dataloader t2) as E3.
    destruct (evaluate_metrics val_dict_dataloader t2) as [t3 sc].
    simpl in E3.
    destruct (train_xe_frame t) as [Ee Ef].
    destruct test_dict_dataloader as [dl|].
    + pose proof (evaluate_metrics_frame dl t3) as E4.
      intros [= <- _ _]. rewrite E4, E3, E. simpl. by rewrite Ee, Ef.
    + intros [= <- _ _]. rewrite E3, E. simpl. by rewrite Ee, Ef.
  - destruct (train_scst t) as [[t0 shown]|e] eqn:E0; [|done].
    apply train_scst_frame in E0 as (Ee & Ef & _).
    destruct (evaluate_loss _ _) as [[t2 l]|e] eqn:E; [|done].
    apply evaluate_loss_frame in E.
    pose proof (evaluate_metrics_frame val_dict_dataloader t2) as E3.
    destruct (evaluate_metrics val_dict_dataloader t2) as [t3 sc].
    simpl in E3.
    destruct test_dict_dataloader as [dl|].
    + pose proof (evaluate_metrics_frame dl t3) as E4.
      intros [= <- _ _]. rewrite E4, E3, E. simpl. by rewrite Ee, Ef.
    + intros [= <- _ _]. rewrite E3, E. simpl. by rewrite Ee, Ef.
Qed.

(** The passes of an epoch, one by one: the training pass of the phase,
    the validation loss, and the validation scores whose CIDEr entry the
    policy is given.  The evaluations touch the generators only. *)
Lemma epoch_passes_inv (t t1 : Trainer) (v : loop_vars) (x c : float) :
  epoch_passes t v = Ok (t1, x, c) →
  ∃ ta tb,
    (if use_rl v then ∃ shown, train_scst t = Ok (ta, shown)
     else ta = train_xe t)
    ∧ evaluate_loss val_dataloader ta = Ok (tb, x)
    ∧ c = CIDEr (evaluate_metrics val_dict_dataloader tb).2
    ∧ optim t1 = optim ta ∧ scheduler t1 = scheduler ta
    ∧ model t1 = model ta ∧ sched_bound t1 = sched_bound ta.
Proof.
  unfold epoch_passes. unbind.
  assert (∀ ta,
            match evaluate_loss val_dataloader ta with
            | Ok (t2, val_loss) =>
                let '(t3, scores) :=
                  evaluate_metrics val_dict_dataloader t2 in
                Ok (match test_dict_dataloader with
                    | Some dl => (evaluate_metrics dl t3).1
                    | None => t3
                    end, val_loss, CIDEr scores)
            | Raise e => Raise e
            end = Ok (t1, x, c) →
            ∃ tb, evaluate_loss val_dataloader ta = Ok (tb, x)
                  ∧ c = CIDEr (evaluate_metrics val_dict_dataloader tb).2
                  ∧ optim t1 = optim ta ∧ scheduler t1 = scheduler ta
                  ∧ model t1 = model ta
                  ∧ sched_bound t1 = sched_bound ta) as K.
  { intros ta.
    destruct (evaluate_loss val_dataloader ta) as [[t2 l]|e] eqn:E; [|done].
    apply evaluate_loss_frame in E as F.
    pose proof (evaluate_metrics_frame val_dict_dataloader t2) as E3.
    destruct (evaluate_metrics val_dict_dataloader t2) as [t3 sc] eqn:EM.
    simpl in E3.
    destruct test_dict_dataloader as [dl|].
    - pose proof (evaluate_metrics_frame dl t3) as E4.
      intros [= <- <- <-]. exists t2. split; [done|].
      split; [by rewrite EM|].
      rewrite E4, E3, F. by split_and!.
    - intros [= <- <- <-]. exists t2. split; [done|].
      split; [by rewrite EM|].
      rewrite E3, F. by split_and!. }
  destruct (use_rl v); simpl.
  - destruct (train_scst t) as [[t0 shown]|e] eqn:E0; [|done].
    intros E. apply K in E as (tb & ?). exists t0, tb. split; [eauto|done].
  - intros E. apply K in E as (tb & ?). by exists (train_xe t), tb.
Qed.

(** ** The checkpoint store *)

Lemma lookup_captured (upd : gmap string value) (t : Trainer) (k : string) :
  upd !! k = None → checkpoint_dict upd t !! k = dict_for_saving t !! k.
Proof. intros E. unfold checkpoint_dict. by rewrite lookup_union_r. Qed.

Lemma lookup_supplied (upd : gmap string value) (t : Trainer) (k : string)
    (x : value) :
  upd !! k = Some x → checkpoint_dict upd t !! k = Some x.
Proof.
  intros E. unfold checkpoint_dict.
  by rewrite (lookup_union_Some_l _ _ _ _ E).
Qed.

Ltac checkpoint_lookup :=
  repeat match goal with
  | E : ?upd !! ?k = None |- _ => rewrite (lookup_captured upd _ k E)
  | E : ?upd !! ?k = Some ?x |- _ => rewrite (lookup_supplied upd _ k x E)
  end.

(** What [load_checkpoint] does with a file written by [save_checkpoint]:
    the generators and the weights of the writer come back, and the
    returned dict holds the writer's epoch and the caller's scalars. *)
Lemma load_saved (t0 t : Trainer) (upd : gmap string value) :
  Forall (λ k, upd !! k = None) captured_keys →
  Forall (λ k, is_Some (upd !! k)) supplied_keys →
  fs t !! last_model_path = Some (Pickle (checkpoint_dict upd t0)) →
  ∃ loaded,
    load_checkpoint last_model_path t
    = Ok (with_model (load_state_dict_lenient (model t0) (model t))
            (with_rng (rng t0) t), Some loaded)
    ∧ loaded !! "epoch" = Some (VInt (epoch t0))
    ∧ loaded !! "optimizer" = Some (VOptim (optim t0))
    ∧ loaded !! "scheduler" = Some (VSched (scheduler t0))
    ∧ loaded !! "best_val_cider" = upd !! "best_val_cider"
    ∧ loaded !! "best_test_cider" = upd !! "best_test_cider"
    ∧ loaded !! "patience" = upd !! "patience"
    ∧ loaded !! "use_rl" = upd !! "use_rl".
Proof.
  intros Hc Hs Hfs.
  unfold captured_keys in Hc. unfold supplied_keys in Hs.
  repeat match goal with
  | F : Forall _ (_ :: _) |- _ => inversion_clear F
  | S : is_Some _ |- _ => destruct S
  end.
  set (c := checkpoint_dict upd t0) in *.
  assert (c !! "torch_rng_state" = Some (VRng (torch_rng (rng t0)))) as L1
    by (subst c; checkpoint_lookup; unfold dict_for_saving; by dict_lookup).
  assert (c !! "cuda_rng_state" = Some (VRng (cuda_rng (rng t0)))) as L2
    by (subst c; checkpoint_lookup; unfold dict_for_saving; by dict_lookup).
  assert (c !! "numpy_rng_state" = Some (VRng (numpy_rng (rng t0)))) as L3
    by (subst c; checkpoint_lookup; unfold dict_for_saving; by dict_lookup).
  assert (c !! "random_rng_state" = Some (VRng (random_rng (rng t0)))) as L4
    by (subst c; checkpoint_lookup; unfold dict_for_saving; by dict_lookup).
  assert (c !! "state_dict" = Some (VStateDict (model t0))) as L5
    by (subst c; checkpoint_lookup; unfold dict_for_saving; by dict_lookup).
  assert (c !! "epoch" = Some (VInt (epoch t0))) as L6
    by (subst c; checkpoint_lookup; unfold dict_for_saving; by dict_lookup).
  assert (c !! "optimizer" = Some (VOptim (optim t0))) as L7
    by (subst c; checkpoint_lookup; unfold dict_for_saving; by dict_lookup).
  assert (c !! "scheduler" = Some (VSched (scheduler t0))) as L8
    by (subst c; checkpoint_lookup; unfold dict_for_saving; by dict_lookup).
  assert (c !! "val_loss" = upd !! "val_loss") as L9
    by (subst c; by checkpoint_lookup).
  assert (c !! "best_val_cider" = upd !! "best_val_cider") as L10
    by (subst c; by checkpoint_lookup).
  assert (c !! "best_test_cider" = upd !! "best_test_cider") as L11
    by (subst c; by checkpoint_lookup).
  assert (c !! "patience" = upd !! "patience") as L12
    by (subst c; by checkpoint_lookup).
  assert (c !! "use_rl" = upd !! "use_rl") as L13
    by (subst c; by checkpoint_lookup).
  clearbody c.
  unfold load_checkpoint. rewrite Hfs. simpl torch_load. unbind.
  unfold getitem.
  rewrite L1, L2, L3, L4, L5, L6, L7, L8, L9, L10, L11, L12, L13.
  repeat match goal with E : upd !! _ = Some _ |- _ => rewrite E; clear E end.
  simpl. destruct (rng t0).
  eexists. split; [reflexivity|].
  by dict_lookup.
Qed.

Lemma dict_for_updating_keys (val_loss cider : float) (v : loop_vars) :
  Forall (λ k, dict_for_updating val_loss cider v !! k = None) captured_keys
  ∧ Forall (λ k, is_Some (dict_for_updating val_loss cider v !! k))
           supplied_keys.
Proof.
  unfold dict_for_updating, captured_keys, supplied_keys.
  split; repeat constructor; dict_lookup; by eauto.
Qed.

(** Resuming from a file the loop wrote gives back the loop's local
    variables, the epoch counter, the optimizer and the scheduler. *)
Lemma resume_from_saved (t0 t : Trainer) (val_loss cider : float)
    (v : loop_vars) :
  fs t !! last_model_path
  = Some (Pickle (checkpoint_dict (dict_for_updating val_loss cider v) t0)) →
  train_init (Some last_model_path) t
  = Ok (with_scheduler (scheduler t0)
          (with_optim (optim t0)
             (with_epoch (epoch t0)
                (with_model (load_state_dict_lenient (model t0) (model t))
                   (with_rng (rng t0) t)))), v).
Proof.
  intros Hfs.
  destruct (dict_for_updating_keys val_loss cider v) as [Hc Hs].
  destruct (load_saved t0 t _ Hc Hs Hfs)
    as (loaded & E & He & Ho & Hsc & Hbv & Hbt & Hp & Hu).
  unfold train_init, os_path_isfile. rewrite Hfs, E. unbind.
  unfold getitem. rewrite He, Ho, Hsc, Hbv, Hbt, Hp, Hu.
  unfold dict_for_updating. dict_lookup. simpl. by destruct v.
Qed.

(** C4.  A checkpoint written by [save_checkpoint] and read back by
    [load_checkpoint] from the last slot: the read succeeds, and the epoch,
    the best validation CIDEr, the patience and the phase flag it returns
    are the trainer's epoch and the entries the caller passed to
    [save_checkpoint].  The caller's dict supplies the scalars that
    [load_checkpoint] reads and does not shadow the keys that
    [save_checkpoint] captures itself. *)
Theorem save_load_roundtrip (t : Trainer) (upd : gmap string value) :
  Forall (λ k, upd !! k = None) captured_keys →
  Forall (λ k, is_Some (upd !! k)) supplied_keys →
  ∃ t' loaded,
    load_checkpoint last_model_path (save_checkpoint upd t)
    = Ok (t', Some loaded)
    ∧ loaded !! "epoch" = Some (VInt (epoch t))
    ∧ loaded !! "best_val_cider" = upd !! "best_val_cider"
    ∧ loaded !! "patience" = upd !! "patience"
    ∧ loaded !! "use_rl" = upd !! "use_rl".
Proof.
  intros Hc Hs.
  assert (fs (save_checkpoint upd t) !! last_model_path
          = Some (Pickle (checkpoint_dict upd t))) as Hfs.
  { unfold save_checkpoint. simpl. by rewrite lookup_insert_eq. }
  destruct (load_saved t _ upd Hc Hs Hfs)
    as (loaded & E & He & _ & _ & Hbv & _ & Hp & Hu).
  eauto 10.
Qed.

(** C6.  When the path is absent, [load_checkpoint] returns [None] rather
    than raising, and [train] asked to resume from that path, or from no
    path at all, starts its loop from the fresh state: supervised phase,
    both best scores 0 and patience 0. *)
Theorem missing_checkpoint_starts_fresh (t : Trainer) (fname : string)
    (fuel : nat) :
  fs t !! fname = None →
  load_checkpoint fname t = Ok (t, None)
  ∧ train_init (Some fname) t = Ok (t, fresh_vars)
  ∧ train_init None t = Ok (t, fresh_vars)
  ∧ train (Some fname) fuel t = train_loop fuel t fresh_vars
  ∧ train None fuel t = train_loop fuel t fresh_vars
  ∧ use_rl fresh_vars = false
  ∧ best_val_cider fresh_vars = 0%float
  ∧ best_test_cider fresh_vars = 0%float
  ∧ patience fresh_vars = 0.
Proof.
  intros E.
  assert (train_init (Some fname) t = Ok (t, fresh_vars)) as Ei.
  { unfold train_init, os_path_isfile. by rewrite E. }
  split_and!; try done.
  - unfold load_checkpoint. by rewrite E.
  - unfold train. by rewrite Ei.
Qed.

(** ** The patience policy *)


(** The exit flag is raised exactly when the patience left by the policy
    is 5, which only happens in the RL phase; a switch happens only at a
    non-improving epoch and leaves patience 0. *)
Lemma policy_flags (v : loop_vars) (m : float) :
  (exit_train (policy v m) = true ↔ patience (vars (policy v m)) = 5)
  ∧ (exit_train (policy v m) = true →
     use_rl v = true ∧ use_rl (vars (policy v m)) = true)
  ∧ (switch_to_rl (policy v m) = true ↔
     use_rl v = false ∧ geb m (best_val_cider v) = false
     ∧ patience v + 1 = 5)
  ∧ (switch_to_rl (policy v m) = true →
     best (policy v m) = false ∧ use_rl (vars (policy v m)) = true
     ∧ patience (vars (policy v m)) = 0)
  ∧ best (policy v m) = geb m (best_val_cider v).
Proof.
  unfold policy.
  destruct (geb m (best_val_cider v)); simpl.
  - split_and!; try done; intros; intuition discriminate.
  - destruct (Z.eqb_spec (patience v + 1) 5) as [E|E];
      destruct (use_rl v); simpl;
      split_and!; try done; intros; intuition (try discriminate; try lia).
Qed.

Lemma policy_bounds (v : loop_vars) (m : float) :
  (0 ≤ patience v ≤ 4)%Z →
  (0 ≤ patience (vars (policy v m)) ≤ 5)%Z
  ∧ (exit_train (policy v m) = false →
     (patience (vars (policy v m)) ≤ 4)%Z).
Proof.
  intros Hp. unfold policy.
  destruct (geb m (best_val_cider v)); simpl; [lia|].
  destruct (Z.eqb_spec (patience v + 1) 5) as [E|E];
    destruct (use_rl v); simpl; split; try lia; try done.
Qed.

Lemma policy_never_supervised_at_threshold (v : loop_vars) (m : float) :
  ¬ (use_rl (vars (policy v m)) = false
     ∧ patience (vars (policy v m)) = 5).
Proof.
  unfold policy.
  destruct (geb m (best_val_cider v)); simpl; [intros [_ ?]; lia|].
  destruct (Z.eqb_spec (patience v + 1) 5) as [E|E];
    destruct (use_rl v) eqn:U; simpl; intros [? ?]; try done; lia.
Qed.

(** ** One iteration and the loop *)

Lemma epoch_end_report (t t' : Trainer) (x c : float) (d : decision)
    (r : epoch_report) :
  epoch_end t x c d = Ok (t', r) → val_cider r = c ∧ decided r = d.
Proof.
  unfold epoch_end. unbind.
  repeat match goal with
  | |- context [match ?x with Ok _ => _ | Raise _ => _ end] =>
      destruct x as [[]|]; try done
  | |- context [match ?x with Ok _ => _ | Raise _ => _ end] =>
      destruct x; try done
  end; by intros [= _ <-].
Qed.

Lemma train_epoch_report (t t' : Trainer) (v v' : loop_vars)
    (r : epoch_report) :
  train_epoch t v = Ok (t', v', r) →
  decided r = policy v (val_cider r) ∧ v' = vars (decided r).
Proof.
  unfold train_epoch. unbind.
  destruct (epoch_passes t v) as [[[t1 x] c]|]; [|done].
  destruct (epoch_end _ _ _ _) as [[t2 r']|] eqn:E; [|done].
  apply epoch_end_report in E as [E1 E2].
  intros [= _ <- <-]. by rewrite E1, E2.
Qed.

(** The reports of a run, one iteration at a time. *)
Lemma train_loop_reports (fuel : nat) (t : Trainer) (v : loop_vars) :
  match reports (train_loop fuel t v) with
  | [] => outcome (train_loop fuel t v) ≠ Exited
  | e :: rest =>
      decided e = policy v (val_cider e)
      ∧ ∃ fuel' t',
          fuel = S fuel'
          ∧ if exit_train (decided e)
            then rest = [] ∧ outcome (train_loop fuel t v) = Exited
            else rest = reports (train_loop fuel' t' (vars (decided e)))
                 ∧ outcome (train_loop fuel t v)
                   = outcome (train_loop fuel' t' (vars (decided e)))
  end.
Proof.
  destruct fuel as [|n]; simpl; [done|].
  destruct (train_epoch t v) as [[[t' v'] r]|] eqn:E; simpl; [|done].
  apply train_epoch_report in E as [E1 ->].
  destruct (exit_train (decided r)) eqn:X; simpl.
  - rewrite X. eauto 10.
  - rewrite X. eauto 10.
Qed.








(** C2, as amended.  When the first two epochs of a fresh run produce the
    same validation CIDEr [m], with [m >= 0] and [m >= m] (so [m] is not
    NaN), both epochs are marked best, the best validation CIDEr is [m]
    after each of them, and patience is 0 after the second. *)
Theorem identical_metrics_keep_best (t : Trainer) (e1 e2 : epoch_report)
    (m : float) :
  reports (train_loop 2 t fresh_vars) = [e1; e2] →
  val_cider e1 = m → val_cider e2 = m →
  geb m 0%float = true → geb m m = true →
  best (decided e1) = true ∧ best (decided e2) = true
  ∧ best_val_cider (vars (decided e1)) = m
  ∧ best_val_cider (vars (decided e2)) = m
  ∧ patience (vars (decided e1)) = 0
  ∧ patience (vars (decided e2)) = 0.
Proof.
  intros Hr H1 H2 G0 Gm.
  pose proof (train_loop_reports 2 t fresh_vars) as R. rewrite Hr in R.
  destruct R as (Hd1 & fuel' & t' & [= <-] & R).
  rewrite H1 in Hd1.
  assert (decided e1
          = {| vars := {| use_rl := false; best_val_cider := m;
                          best_test_cider := 0%float; patience := 0 |};
               best := true; switch_to_rl := false; exit_train := false |})
    as D1.
  { rewrite Hd1. unfold policy, fresh_vars. simpl. by rewrite G0. }
  rewrite D1 in R. cbn [exit_train vars] in R. destruct R as [R _].
  pose proof (train_loop_reports 1 t'
                {| use_rl := false; best_val_cider := m;
                   best_test_cider := 0%float; patience := 0 |}) as R2.
  rewrite <- R in R2. destruct R2 as (Hd2 & _).
  rewrite H2 in Hd2.
  rewrite D1, Hd2. unfold policy. simpl. by rewrite Gm.
Qed.

(** ** Loading, rollback and persistence *)

Lemma load_checkpoint_inv (fname : string) (t t' : Trainer)
    (o : option (gmap string value)) :
  load_checkpoint fname t = Ok (t', o) →
  match fs t !! fname with
  | None => t' = t ∧ o = None
  | Some (Pickle c) =>
      ∃ sd r1 r2 r3 r4,
        c !! "state_dict" = Some (VStateDict sd)
        ∧ c !! "torch_rng_state" = Some (VRng r1)
        ∧ c !! "cuda_rng_state" = Some (VRng r2)
        ∧ c !! "numpy_rng_state" = Some (VRng r3)
        ∧ c !! "random_rng_state" = Some (VRng r4)
        ∧ t' = with_model (load_state_dict_lenient sd (model t))
                 (with_rng {| torch_rng := r1; cuda_rng := r2;
                              numpy_rng := r3; random_rng := r4 |} t)
  | Some _ => False
  end.
Proof.
  unfold load_checkpoint.
  destruct (fs t !! fname) as [[| |c]|]; simpl; try done.
  - unbind. unfold getitem.
    destruct (c !! "torch_rng_state") as [[]|]; simpl; try done.
    destruct (c !! "cuda_rng_state") as [[]|]; simpl; try done.
    destruct (c !! "numpy_rng_state") as [[]|]; simpl; try done.
    destruct (c !! "random_rng_state") as [[]|]; simpl; try done.
    destruct (c !! "state_dict") as [[]|]; simpl; try done.
    repeat match goal with
    | |- context [match c !! ?k with Some _ => _ | None => _ end] =>
        destruct (c !! k) as [?|]; simpl; try done
    end.
    intros [= <- _]. by eexists _, _, _, _, _.
  - by intros [= <- <-].
Qed.

(** [load_checkpoint] touches the generators and the weights only. *)
Lemma load_checkpoint_frame (fname : string) (t t' : Trainer)
    (o : option (gmap string value)) :
  load_checkpoint fname t = Ok (t', o) →
  optim t' = optim t ∧ scheduler t' = scheduler t
  ∧ sched_bound t' = sched_bound t ∧ epoch t' = epoch t ∧ fs t' = fs t.
Proof.
  intros E. apply load_checkpoint_inv in E.
  destruct (fs t !! fname) as [[| |c]|]; try done.
  - by destruct E as (sd & r1 & r2 & r3 & r4 & _ & _ & _ & _ & _ & ->).
  - by destruct E as [-> _].
Qed.

Lemma epoch_end_inv (t t' : Trainer) (x c : float) (d : decision)
    (r : epoch_report) :
  epoch_end t x c d = Ok (t', r) →
  ∃ t2,
    persisted_from t t2 d
    ∧ r = {| val_cider := c; decided := d;
             saved := checkpoint_dict (dict_for_updating x c (vars d)) t2 |}
    ∧ fs t' !! last_model_path = Some (Pickle (saved r))
    ∧ fs t' !! best_model_path
      = (if best d then Some (Pickle (saved r))
         else fs t2 !! best_model_path)
    ∧ epoch t' = (if exit_train d then epoch t2 else epoch t2 + 1)
    ∧ model t' = model t2 ∧ optim t' = optim t2
    ∧ scheduler t' = scheduler t2 ∧ rng t' = rng t2.
Proof.
  unfold epoch_end, persisted_from. unbind.
  set (t1 := if switch_to_rl d then _ else t).
  destruct (if switch_to_rl d && negb (best d) then _ else Ok t1)
    as [t2|] eqn:E2; [|done].
  assert (persisted_from t t2 d) as P.
  { unfold persisted_from. subst t1.
    destruct (switch_to_rl d), (best d); simpl in E2; try by injection E2.
    destruct (load_checkpoint _ _) as [[t2' o]|]; [|done].
    injection E2 as ->. eauto. }
  pose proof last_best_distinct as D.
  unfold copyfile, save_checkpoint. simpl fs. rewrite lookup_insert_eq.
  unfold persisted_from in P. clear E2.
  destruct (best d); intros [= <- <-]; exists t2;
    destruct (exit_train d); simpl.
  all: rewrite ?lookup_insert_eq.
  all: rewrite ?lookup_insert_ne by done.
  all: rewrite ?lookup_insert_eq.
  all: by split_and!.
Qed.

Lemma persisted_from_frame (t t2 : Trainer) (d : decision) :
  persisted_from t t2 d →
  epoch t2 = epoch t ∧ fs t2 = fs t ∧ scheduler t2 = scheduler t
  ∧ optim t2 = (if switch_to_rl d then rl_optimizer else optim t).
Proof.
  unfold persisted_from.
  destruct (switch_to_rl d), (best d); try by intros ->.
  intros [o E]. by apply load_checkpoint_frame in E as (-> & -> & _ & -> & ->).
Qed.

(** The scalars of the persisted dict are the locals the policy left. *)
Lemma saved_scalars (x c : float) (v : loop_vars) (t : Trainer) :
  let s := checkpoint_dict (dict_for_updating x c v) t in
  s !! "patience" = Some (VInt (patience v))
  ∧ s !! "use_rl" = Some (VBool (use_rl v))
  ∧ s !! "best_val_cider" = Some (VFloat (best_val_cider v))
  ∧ s !! "best_test_cider" = Some (VFloat (best_test_cider v))
  ∧ s !! "epoch" = Some (VInt (epoch t))
  ∧ s !! "optimizer" = Some (VOptim (optim t))
  ∧ s !! "scheduler" = Some (VSched (scheduler t))
  ∧ s !! "state_dict" = Some (VStateDict (model t)).
Proof.
  simpl. unfold checkpoint_dict.
  split_and!;
    first [ apply lookup_union_Some_l; unfold dict_for_updating;
            by dict_lookup
          | rewrite lookup_union_r
              by (unfold dict_for_updating; by dict_lookup);
            unfold dict_for_saving; by dict_lookup ].
Qed.

(** What a completed iteration leaves behind. *)
Lemma train_epoch_inv (t t' : Trainer) (v v' : loop_vars)
    (r : epoch_report) :
  train_epoch t v = Ok (t', v', r) →
  ∃ t1 x t2,
    epoch_passes t v = Ok (t1, x, val_cider r)
    ∧ decided r = policy v (val_cider r) ∧ v' = vars (decided r)
    ∧ persisted_from t1 t2 (decided r)
    ∧ saved r
      = checkpoint_dict (dict_for_updating x (val_cider r) v') t2
    ∧ fs t' !! last_model_path = Some (Pickle (saved r))
    ∧ fs t' !! best_model_path
      = (if best (decided r) then Some (Pickle (saved r))
         else fs t !! best_model_path)
    ∧ epoch t' = (if exit_train (decided r) then epoch t else epoch t + 1)
    ∧ model t' = model t2 ∧ optim t' = optim t2
    ∧ scheduler t' = scheduler t2 ∧ rng t' = rng t2.
Proof.
  unfold train_epoch. unbind.
  destruct (epoch_passes t v) as [[[t1 x] c]|] eqn:Ep; [|done].
  destruct (epoch_end _ _ _ _) as [[t3 r']|] eqn:E; [|done].
  intros [= <- <- <-].
  apply epoch_end_inv in E
    as (t2 & P & -> & Hl & Hb & He & Hm & Ho & Hs & Hr).
  apply epoch_passes_frame in Ep as Fp. destruct Fp as [Fe Ff].
  destruct (persisted_from_frame _ _ _ P) as (Pe & Pf & _ & _).
  exists t1, x, t2. simpl in *.
  rewrite Pf, Ff in Hb. rewrite Pe, Fe in He.
  by split_and!.
Qed.

Lemma load_state_dict_lenient_same_keys (sd w : gmap string tensor) :
  dom sd = dom w → load_state_dict_lenient sd w = sd.
Proof.
  intros D. apply map_eq. intros k.
  unfold load_state_dict_lenient. rewrite map_lookup_imap.
  destruct (w !! k) as [old|] eqn:E; simpl.
  - assert (k ∈ dom sd) as [x ->]%elem_of_dom; [|done].
    rewrite D. apply elem_of_dom. eauto.
  - symmetry. apply not_elem_of_dom. rewrite D. by apply not_elem_of_dom.
Qed.

(** Once the passes are done, the end of the epoch raises only when a
    rollback fails to load the best slot: in every other case the last slot
    is written. *)
Lemma epoch_end_succeeds (t : Trainer) (x c : float) (d : decision) :
  switch_to_rl d && negb (best d) = false
  ∨ fs t !! best_model_path = None →
  ∃ t' r, epoch_end t x c d = Ok (t', r).
Proof.
  intros G. unfold epoch_end. unbind.
  set (t1 := if switch_to_rl d then _ else t).
  assert (∃ t2, (if switch_to_rl d && negb (best d)
                 then match load_checkpoint best_model_path t1 with
                      | Ok (t', _) => Ok t'
                      | Raise e => Raise e
                      end
                 else Ok t1) = Ok t2) as [t2 ->].
  { destruct (switch_to_rl d && negb (best d)) eqn:S; [|by eexists].
    destruct G as [G|G]; [done|].
    unfold load_checkpoint.
    assert (fs t1 = fs t) as -> by (subst t1; by destruct (switch_to_rl d)).
    rewrite G. by eexists. }
  unfold copyfile, save_checkpoint. simpl fs. rewrite lookup_insert_eq.
  destruct (best d); by eexists _, _.
Qed.

(** The entries of the persisted dict that [save_checkpoint] reads off
    the process: the four generator states. *)
Lemma saved_generators (x c : float) (v : loop_vars) (t : Trainer) :
  let s := checkpoint_dict (dict_for_updating x c v) t in
  s !! "torch_rng_state" = Some (VRng (torch_rng (rng t)))
  ∧ s !! "cuda_rng_state" = Some (VRng (cuda_rng (rng t)))
  ∧ s !! "numpy_rng_state" = Some (VRng (numpy_rng (rng t)))
  ∧ s !! "random_rng_state" = Some (VRng (random_rng (rng t)))
  ∧ s !! "val_loss" = Some (VFloat x)
  ∧ s !! "val_cider" = Some (VFloat c).
Proof.
  simpl. unfold checkpoint_dict.
  split_and!;
    first [ apply lookup_union_Some_l; unfold dict_for_updating;
            by dict_lookup
          | rewrite lookup_union_r
              by (unfold dict_for_updating; by dict_lookup);
            unfold dict_for_saving; by dict_lookup ].
Qed.

(** The keys of a persisted dict: the eight [save_checkpoint] captures and
    the six [train] supplies. *)
Lemma saved_keys (x c : float) (v : loop_vars) (t : Trainer) :
  dom (checkpoint_dict (dict_for_updating x c v) t)
  = list_to_set (captured_keys ++ supplied_keys ++ ["val_cider"]).
Proof.
  unfold checkpoint_dict, dict_for_updating, dict_for_saving.
  rewrite dom_union_L, !dom_insert_L, dom_empty_L. simpl. set_solver.
Qed.

(** C5.  An iteration of the loop that completes has written its dict to
    the last slot: the whole run state, that is the weights, the
    optimizer, the scheduler and the four generator states the iteration
    ends with, the epoch counter of the iteration, the scalars the policy
    left and the two validation results, under fourteen keys and nothing
    else.  When the epoch was marked best the best slot holds the same
    dict, so both slots carry the same epoch field; when it was not, the
    best slot is as it was before the iteration. *)
Theorem last_slot_and_promotion (t t' : Trainer) (v v' : loop_vars)
    (r : epoch_report) :
  train_epoch t v = Ok (t', v', r) →
  fs t' !! last_model_path = Some (Pickle (saved r))
  ∧ saved r !! "epoch" = Some (VInt (epoch t))
  ∧ saved r !! "patience" = Some (VInt (patience v'))
  ∧ saved r !! "use_rl" = Some (VBool (use_rl v'))
  ∧ saved r !! "best_val_cider" = Some (VFloat (best_val_cider v'))
  ∧ (best (decided r) = true →
     fs t' !! best_model_path = fs t' !! last_model_path)
  ∧ (best (decided r) = false →
     fs t' !! best_model_path = fs t !! best_model_path)
  ∧ saved r !! "state_dict" = Some (VStateDict (model t'))
  ∧ saved r !! "optimizer" = Some (VOptim (optim t'))
  ∧ saved r !! "scheduler" = Some (VSched (scheduler t'))
  ∧ saved r !! "torch_rng_state" = Some (VRng (torch_rng (rng t')))
  ∧ saved r !! "cuda_rng_state" = Some (VRng (cuda_rng (rng t')))
  ∧ saved r !! "numpy_rng_state" = Some (VRng (numpy_rng (rng t')))
  ∧ saved r !! "random_rng_state" = Some (VRng (random_rng (rng t')))
  ∧ saved r !! "best_test_cider" = Some (VFloat (best_test_cider v'))
  ∧ saved r !! "val_cider" = Some (VFloat (val_cider r))
  ∧ (∃ t1 x, epoch_passes t v = Ok (t1, x, val_cider r)
             ∧ saved r !! "val_loss" = Some (VFloat x)
             ∧ saved r
               = checkpoint_dict
                   (dict_for_updating x (val_cider r) v')
                   (with_epoch (epoch t) t'))
  ∧ dom (saved r)
    = list_to_set (captured_keys ++ supplied_keys ++ ["val_cider"]).
Proof.
  intros E. apply train_epoch_inv in E
    as (t1 & x & t2 & Ep & Hd & Hv & P & Hs & Hl & Hb & _ & Hm & Ho & Hsc
        & Hr).
  apply epoch_passes_frame in Ep as Fp. destruct Fp as [Fe _].
  destruct (persisted_from_frame _ _ _ P) as (Pe & _).
  destruct (saved_scalars x (val_cider r) v' t2)
    as (Sp & Su & Sb & St & Se & So & Ss & Sm).
  destruct (saved_generators x (val_cider r) v' t2)
    as (G1 & G2 & G3 & G4 & Gl & Gc).
  pose proof (saved_keys x (val_cider r) v' t2) as K.
  rewrite <- Hs in Sp, Su, Sb, St, Se, So, Ss, Sm, G1, G2, G3, G4, Gl, Gc, K.
  rewrite Pe, Fe in Se. rewrite <- Hm in Sm. rewrite <- Ho in So.
  rewrite <- Hsc in Ss. rewrite <- Hr in G1, G2, G3, G4.
  split_and!; try done.
  - intros B. by rewrite Hl, Hb, B.
  - intros B. by rewrite Hb, B.
  - exists t1, x. split; [done|]. split; [done|].
    rewrite Hs. unfold checkpoint_dict, dict_for_saving. simpl.
    by rewrite Hm, Ho, Hsc, Hr, Pe, Fe.
Qed.

(** C3.  At an iteration that switches from the supervised to the RL phase
    (patience reached 5 while [use_rl] was false; such an epoch is never a
    best one): the optimizer of the trainer is the newly built Adam with
    learning rate 5e-6 and no moments, and the scheduler is the one the
    training pass left; both are what the last slot then records.  When
    the best slot holds a checkpoint, the weights are that checkpoint's
    state dict loaded leniently over the current ones (the state dict
    itself when the key sets agree) and the generators are the
    checkpoint's; its optimizer and scheduler entries are not read.  When
    the best slot is empty nothing is rolled back. *)
Theorem rl_switch_rollback (t t' : Trainer) (v v' : loop_vars)
    (r : epoch_report) :
  train_epoch t v = Ok (t', v', r) →
  switch_to_rl (decided r) = true →
  ∃ t1 x,
    epoch_passes t v = Ok (t1, x, val_cider r)
    ∧ use_rl v = false ∧ patience v + 1 = 5 ∧ best (decided r) = false
    ∧ use_rl v' = true ∧ patience v' = 0
    ∧ optim t' = rl_optimizer
    ∧ lr rl_optimizer = 5e-6%float ∧ moments rl_optimizer = adam_empty
    ∧ scheduler t' = scheduler t1
    ∧ saved r !! "optimizer" = Some (VOptim rl_optimizer)
    ∧ saved r !! "scheduler" = Some (VSched (scheduler t1))
    ∧ match fs t !! best_model_path with
      | None => model t' = model t1 ∧ rng t' = rng t1
      | Some (Pickle c) =>
          ∃ sd r1 r2 r3 r4,
            c !! "state_dict" = Some (VStateDict sd)
            ∧ c !! "torch_rng_state" = Some (VRng r1)
            ∧ c !! "cuda_rng_state" = Some (VRng r2)
            ∧ c !! "numpy_rng_state" = Some (VRng r3)
            ∧ c !! "random_rng_state" = Some (VRng r4)
            ∧ model t' = load_state_dict_lenient sd (model t1)
            ∧ (dom sd = dom (model t1) → model t' = sd)
            ∧ rng t' = {| torch_rng := r1; cuda_rng := r2;
                          numpy_rng := r3; random_rng := r4 |}
      | Some _ => False
      end.
Proof.
  intros E S. apply train_epoch_inv in E
    as (t1 & x & t2 & Ep & Hd & Hv & P & Hs & Hl & Hb & _ & Hm & Ho & Hsc
        & Hr).
  destruct (policy_flags v (val_cider r)) as (_ & _ & Hsw & Hsw' & _).
  rewrite <- Hd in Hsw, Hsw'.
  destruct (proj1 Hsw S) as (U & _ & Hp).
  destruct (Hsw' S) as (B & U' & P').
  destruct (persisted_from_frame _ _ _ P) as (_ & _ & Ps & Po).
  rewrite S in Po.
  destruct (saved_scalars x (val_cider r) v' t2)
    as (_ & _ & _ & _ & _ & So & Ss & _).
  rewrite <- Hs, ?Po, ?Ps in So, Ss.
  exists t1, x. subst v'.
  split_and!; try done; try congruence.
  apply epoch_passes_frame in Ep as [_ Ff].
  unfold persisted_from in P. rewrite S, B in P. destruct P as [o L].
  apply load_checkpoint_inv in L. simpl fs in L. rewrite Ff in L.
  destruct (fs t !! best_model_path) as [[| |c]|]; try done.
  - destruct L as (sd & r1 & r2 & r3 & r4 & ? & ? & ? & ? & ? & ->).
    exists sd, r1, r2, r3, r4. simpl in *.
    split_and!; try done.
    intros D. rewrite Hm. by apply load_state_dict_lenient_same_keys.
  - destruct L as [-> _]. by rewrite Hm, Hr.
Qed.

(** ** Invariants of a run *)

Lemma train_loop_Forall (I : loop_vars → Prop) (Q : epoch_report → Prop) :
  (∀ t v t' v' r,
     I v → train_epoch t v = Ok (t', v', r) →
     Q r ∧ (exit_train (decided r) = false → I v')) →
  ∀ fuel t v, I v → Forall Q (reports (train_loop fuel t v)).
Proof.
  intros Hstep fuel. induction fuel as [|n IH]; intros t v Hv; simpl.
  { constructor. }
  destruct (train_epoch t v) as [[[t' v'] r]|] eqn:E; simpl.
  - destruct (Hstep _ _ _ _ _ Hv E) as [Hq Hi].
    destruct (exit_train (decided r)); simpl.
    + by repeat constructor.
    + constructor; [done|]. apply IH. by apply Hi.
  - constructor.
Qed.

Lemma train_epoch_recorded (t t' : Trainer) (v v' : loop_vars)
    (r : epoch_report) :
  train_epoch t v = Ok (t', v', r) →
  recorded r (patience v') (use_rl v')
  ∧ decided r = policy v (val_cider r) ∧ v' = vars (decided r).
Proof.
  intros E. apply train_epoch_inv in E
    as (t1 & x & t2 & _ & Hd & Hv & _ & Hs & _).
  destruct (saved_scalars x (val_cider r) v' t2) as (Sp & Su & _).
  rewrite <- Hs in Sp, Su. by split_and!.
Qed.

(** Whatever the state a run starts from, no checkpoint it persists
    records the supervised phase together with patience 5, and a switch
    to the RL phase happens only at an epoch that did not improve. *)
Lemma never_supervised_at_threshold (fuel : nat) (t : Trainer)
    (v : loop_vars) :
  Forall (λ e, ∃ p u, recorded e p u ∧ ¬ (u = false ∧ p = 5)
                      ∧ (switch_to_rl (decided e) = true →
                         best (decided e) = false))
         (reports (train_loop fuel t v)).
Proof.
  apply (train_loop_Forall (λ _, True)); [|done].
  intros t0 v0 t' v' r _ E.
  apply train_epoch_recorded in E as (R & Hd & ->).
  split; [|done].
  exists (patience (vars (decided r))), (use_rl (vars (decided r))).
  rewrite Hd. split_and!.
  - by rewrite <- Hd.
  - apply policy_never_supervised_at_threshold.
  - apply policy_flags.
Qed.

(** C10, as amended.  In a run that starts with patience between 0 and 4
    (a fresh start, or a resume from a checkpoint persisted before the
    loop ended), every persisted checkpoint records a patience between 0
    and 5; patience 5 is recorded only together with the RL phase, by the
    iteration that leaves the loop; the supervised phase is never recorded
    with patience 5; and a switch to the RL phase happens only at an epoch
    that did not improve. *)
Theorem persisted_patience_invariant (fuel : nat) (t : Trainer)
    (v : loop_vars) :
  (0 ≤ patience v ≤ 4)%Z →
  Forall (λ e, ∃ p u,
            recorded e p u
            ∧ (0 ≤ p ≤ 5)%Z
            ∧ (p = 5 → u = true ∧ exit_train (decided e) = true)
            ∧ ¬ (u = false ∧ p = 5)
            ∧ (switch_to_rl (decided e) = true → best (decided e) = false))
         (reports (train_loop fuel t v)).
Proof.
  apply (train_loop_Forall (λ v, (0 ≤ patience v ≤ 4)%Z)).
  intros t0 v0 t' v' r Hp E.
  apply train_epoch_recorded in E as (R & Hd & ->).
  destruct (policy_bounds v0 (val_cider r) Hp) as [Hb Hn].
  destruct (policy_flags v0 (val_cider r)) as (Hx & Hu & _ & Hsw & _).
  rewrite <- Hd in Hb, Hn, Hx, Hu, Hsw.
  split.
  - exists (patience (vars (decided r))), (use_rl (vars (decided r))).
    split; [done|]. split; [done|]. split; [|split].
    + intros P5. apply Hx in P5. split; [by apply Hu|done].
    + rewrite Hd. apply policy_never_supervised_at_threshold.
    + apply Hsw.
  - intros X. specialize (Hn X). lia.
Qed.

(** ** Scheduler steps of the two training passes *)

(** The self-critical pass never touches the hyper-parameters of the
    optimizer nor the binding of the scheduler: only the moments move. *)
Lemma train_scst_batch_rate (acc acc' : Trainer * list Qc) (sample : batch) :
  train_scst_batch acc sample = Ok acc' →
  lr (optim acc'.1) = lr (optim acc.1)
  ∧ betas (optim acc'.1) = betas (optim acc.1)
  ∧ sched_bound acc'.1 = sched_bound acc.1.
Proof.
  unfold train_scst_batch. destruct acc as [t shown].
  destruct (beam_search_train _ _ _ _ _) as [[caps_gen log_probs] r].
  destruct (view _ _ _) as [reward|e]; unbind; [|done].
  destruct (scst_step _ _ _ _ _) as [w m].
  intros [= <-]. done.
Qed.

Lemma train_scst_batches_rate (samples : list batch)
    (acc acc' : Trainer * list Qc) :
  foldlM train_scst_batch acc samples = Ok acc' →
  lr (optim acc'.1) = lr (optim acc.1)
  ∧ betas (optim acc'.1) = betas (optim acc.1)
  ∧ sched_bound acc'.1 = sched_bound acc.1.
Proof.
  revert acc. induction samples as [|b l IH]; intros acc; simpl.
  - by intros [= <-].
  - destruct (train_scst_batch acc b) as [acc1|e] eqn:E; unbind; [|done].
    intros E'. apply IH in E' as (-> & -> & ->).
    by apply train_scst_batch_rate in E.
Qed.

Lemma train_scst_rate (t t' : Trainer) (shown : list Qc) :
  train_scst t = Ok (t', shown) →
  lr (optim t') = lr (optim t) ∧ betas (optim t') = betas (optim t)
  ∧ sched_bound t' = sched_bound t.
Proof.
  unfold train_scst. destruct (iterate _ _) as [samples r].
  intros E. by apply train_scst_batches_rate in E.
Qed.

(** An epoch of the RL phase leaves the optimizer's learning rate and the
    scheduler as it found them: the pass does not step the scheduler, the
    evaluations touch neither, and a run already in the RL phase builds no
    new optimizer. *)
Lemma rl_epoch_rate (t t' : Trainer) (v v' : loop_vars) (r : epoch_report) :
  use_rl v = true →
  train_epoch t v = Ok (t', v', r) →
  lr (optim t') = lr (optim t) ∧ scheduler t' = scheduler t.
Proof.
  intros U E. apply train_epoch_inv in E
    as (t1 & x & t2 & Ep & Hd & _ & P & _ & _ & _ & _ & _ & Ho & Hs & _).
  destruct (persisted_from_frame _ _ _ P) as (_ & _ & Ps & Po).
  destruct (policy_flags v (val_cider r)) as (_ & _ & Hsw & _).
  rewrite <- Hd in Hsw.
  destruct (switch_to_rl (decided r)).
  { destruct (proj1 Hsw eq_refl) as [U' _]. congruence. }
  rewrite Ho, Hs, Po, Ps.
  apply epoch_passes_inv in Ep as (ta & tb & Tp & _ & _ & -> & -> & _).
  rewrite U in Tp. destruct Tp as [shown Tp].
  apply train_scst_frame in Tp as F. destruct F as (_ & _ & ->).
  by apply train_scst_rate in Tp as (-> & _).
Qed.

(** C9, as amended.  The cross-entropy pass advances the scheduler's step
    counter by one at every batch, hence by the number of batches the
    loader yields over the pass.  The self-critical pass, when it
    completes, leaves the scheduler as it found it and does not move the
    learning rate or the betas of the optimizer either: run on the
    optimizer built at the switch it ends with the learning rate 5e-6, and
    a whole epoch of the RL phase leaves learning rate and scheduler
    alone. *)
Theorem scheduler_steps_per_pass (t : Trainer) :
  last_epoch (scheduler (train_xe t))
  = last_epoch (scheduler t)
    + Z.of_nat (length (iterate train_dataloader (rng t)).1)
  ∧ (∀ sample,
       last_epoch (scheduler (train_xe_batch t sample))
       = last_epoch (scheduler t) + 1)
  ∧ match train_scst t with
    | Ok (t', _) =>
        scheduler t' = scheduler t
        ∧ lr (optim t') = lr (optim t)
        ∧ betas (optim t') = betas (optim t)
    | Raise _ => True
    end
  ∧ (∀ t' shown,
       train_scst (with_sched_bound false (with_optim rl_optimizer t))
       = Ok (t', shown) →
       lr (optim t') = 5e-6%float ∧ scheduler t' = scheduler t)
  ∧ (∀ v t' v' r,
       use_rl v = true → train_epoch t v = Ok (t', v', r) →
       lr (optim t') = lr (optim t) ∧ scheduler t' = scheduler t).
Proof.
  split_and!.
  - unfold train_xe. destruct (iterate _ _) as [samples r]. simpl.
    by destruct (train_xe_batches_frame samples (with_rng r t))
      as (_ & _ & ->).
  - intros sample. apply train_xe_batch_frame.
  - destruct (train_scst t) as [[t' shown]|] eqn:E; [|done].
    apply train_scst_frame in E as F. destruct F as (_ & _ & ->).
    by apply train_scst_rate in E as (-> & -> & _).
  - intros t' shown E.
    apply train_scst_frame in E as F. destruct F as (_ & _ & ->).
    by apply train_scst_rate in E as (-> & _).
  - intros v t' v' r. apply rl_epoch_rate.
Qed.

(** ** Keys of the scoring dictionaries *)

Lemma add_batch_dom (it : nat) (caps_gt caps_gen : list (list string))
    (acc : caption_dicts) :
  dom acc.1 = dom acc.2 →
  dom (add_batch it caps_gt caps_gen acc).1
  = dom (add_batch it caps_gt caps_gen acc).2.
Proof.
  unfold add_batch. generalize (enumerate (zip caps_gt caps_gen)).
  intros l. revert acc. induction l as [|[i [gts_i gen_i]] l IH];
    intros [gen gts] D; simpl; [done|].
  apply IH. simpl in *. by rewrite !dom_insert_L, D.
Qed.

Lemma collect_captions_dom (dl : DataLoader) (w : gmap string tensor)
    (samples : list batch) :
  dom (collect_captions dl w samples).1
  = dom (collect_captions dl w samples).2.
Proof.
  unfold collect_captions. generalize (enumerate samples). intros l.
  assert (dom (∅ : gmap string (list string), ∅ : gmap string (list string)).1
          = dom (∅ : gmap string (list string),
                 ∅ : gmap string (list string)).2) as D by done.
  revert D. generalize (∅ : gmap string (list string),
                        ∅ : gmap string (list string)).
  induction l as [|[it sample] l IH]; intros acc D; simpl; [done|].
  apply IH. by apply add_batch_dom.
Qed.

(** C8.  When [evaluate_metrics] reaches the scorer, the generated
    captions and the references are keyed by the same sample ids: the two
    dicts filled by the loop have equal key sets, and so have the two
    tokenized dicts passed to [compute_scores].  No run of
    [evaluate_metrics] scores mappings whose ids differ. *)
Theorem scoring_keys_aligned (dl : DataLoader) (w : gmap string tensor)
    (samples : list batch) :
  dom (collect_captions dl w samples).1
  = dom (collect_captions dl w samples).2
  ∧ dom (scoring_inputs dl w samples).1
    = dom (scoring_inputs dl w samples).2.
Proof.
  split; [apply collect_captions_dom|].
  unfold scoring_inputs.
  pose proof (collect_captions_dom dl w samples) as D.
  destruct (collect_captions dl w samples) as [gen gts]. simpl in *.
  unfold PTBTokenizer_tokenize. by rewrite !dom_fmap_L.
Qed.

(** ** The SCST reward with a single beam *)

Lemma mean_singleton (x : Qc) : mean [x] = x.
Proof.
  unfold mean, sum_Qc. simpl.
  change (Qc_of_nat 1) with 1%Qc. unfold Qcdiv.
  change (/ 1)%Qc with 1%Qc. ring.
Qed.

Lemma chunks_singletons {A} (l : list A) :
  chunks (length l) 1 l = (λ x, [x]) <$> l.
Proof. induction l as [|x l IH]; simpl; [done|]. by rewrite drop_0, IH. Qed.

Lemma view_single_column (rows : Z) (flat : list Qc)
    (reward : list (list Qc)) :
  view rows 1 flat = Ok reward → reward = (λ x, [x]) <$> flat.
Proof.
  unfold view.
  destruct (_ && _) eqn:G; [|done].
  apply andb_prop in G as [_ G]. apply Z.eqb_eq in G.
  intros [= <-]. replace (Z.to_nat rows) with (length flat) by lia.
  apply chunks_singletons.
Qed.

Lemma baseline_single_column (flat : list Qc) :
  reward_baseline ((λ x, [x]) <$> flat) = (λ x, [x]) <$> flat.
Proof.
  unfold reward_baseline, mean_keepdim.
  induction flat as [|x l IH]; csimpl; [done|].
  by rewrite mean_singleton, IH.
Qed.

Lemma advantage_single_column (flat : list Qc) :
  advantage ((λ x, [x]) <$> flat)
  = (λ _, [0%Qc]) <$> ((λ x, [x]) <$> flat : list (list Qc)).
Proof.
  unfold advantage. rewrite baseline_single_column. unfold sub_baseline.
  induction flat as [|x l IH]; csimpl; [done|].
  rewrite IH. do 2 f_equal. ring.
Qed.

Lemma neg_mul_zero (a z : list (list Qc)) :
  all_zero z → all_zero (neg_mul a z).
Proof.
  unfold all_zero, neg_mul. intros Hz. revert a.
  induction Hz as [|row z Hrow Hz IH]; intros [|arow a]; simpl;
    try constructor; [|by apply IH].
  clear IH Hz. revert arow.
  induction Hrow as [|y row -> Hrow IH]; intros [|x arow]; simpl;
    constructor; [ring|by apply IH].
Qed.

Lemma mean_all_zero (m : list (list Qc)) : all_zero m → mean_all m = 0%Qc.
Proof.
  intros Hz. unfold mean_all, mean.
  assert (sum_Qc (concat m) = 0%Qc) as ->.
  { induction Hz as [|row m Hrow Hz IH]; simpl; [done|].
    unfold sum_Qc in *. rewrite foldr_app, IH.
    clear IH Hz. induction Hrow as [|y row -> Hrow IH]; simpl; [done|].
    rewrite IH. ring. }
  unfold Qcdiv. ring.
Qed.

Lemma loss_single_column (log_probs : list (list (list Qc)))
    (flat : list Qc) :
  scst_loss log_probs ((λ x, [x]) <$> flat) = 0%Qc.
Proof.
  unfold scst_loss. apply mean_all_zero, neg_mul_zero.
  rewrite advantage_single_column. unfold all_zero.
  induction flat; csimpl; repeat constructor. done.
Qed.

(** C7.  With a beam of one, the reward viewed as a (batch, 1) tensor is
    its own baseline, the advantage [reward - reward_baseline] is zero at
    every candidate, and the loss is zero whatever the log-probabilities
    of the model: no gradient signal.  Nothing is raised. *)
Theorem single_beam_zero_signal (rows : Z) (flat : list Qc)
    (log_probs : list (list (list Qc))) (reward : list (list Qc)) :
  view rows 1 flat = Ok reward →
  reward_baseline reward = reward
  ∧ advantage reward = (λ _, [0%Qc]) <$> reward
  ∧ scst_loss log_probs reward = 0%Qc.
Proof.
  intros ->%view_single_column. split_and!.
  - apply baseline_single_column.
  - apply advantage_single_column.
  - apply loss_single_column.
Qed.

(** The same on the code path: with [training_beam_size = 1], a batch of
    [train_scst] that completes hands the all-zero advantage to the
    optimizer step and shows the loss 0. *)
Lemma train_scst_batch_single_beam (t t' : Trainer) (shown shown' : list Qc)
    (sample : batch) :
  training_beam_size = 1 →
  train_scst_batch (t, shown) sample = Ok (t', shown') →
  shown' = (shown ++ [0%Qc])%list
  ∧ ∃ (caps_gen : list string) (reward : list (list Qc)),
      model t'
      = (scst_step (model t) (optim t) sample caps_gen
                   ((λ _, [0%Qc]) <$> reward)).1.
Proof.
  intros B. unfold train_scst_batch. rewrite B.
  destruct (beam_search_train _ _ _ _ _) as [[caps_gen log_probs] r].
  destruct (view _ _ _) as [reward|] eqn:V; unbind; [|done].
  pose proof (view_single_column _ _ _ V) as ->.
  rewrite loss_single_column, advantage_single_column.
  destruct (scst_step _ _ _ _ _) as [w m] eqn:S.
  intros [= <- <-]. split; [done|].
  eexists _, _. simpl. by rewrite S.
Qed.

End Properties.

(** * Further properties of the trainer *)

Section MoreProperties.
Context `{Collaborators}.

Ltac captured_lookup :=
  repeat match goal with
  | E : ?upd !! ?k = None |- _ => rewrite (lookup_captured upd _ k E)
  end.

(** ** More on the loop *)

Lemma policy_scores (v : loop_vars) (m : float) :
  best_test_cider (vars (policy v m)) = best_test_cider v
  ∧ (best (policy v m) = true → best_val_cider (vars (policy v m)) = m)
  ∧ (best (policy v m) = false →
     best_val_cider (vars (policy v m)) = best_val_cider v)
  ∧ (use_rl v = true →
     use_rl (vars (policy v m)) = true ∧ switch_to_rl (policy v m) = false).
Proof.
  unfold policy.
  destruct (geb m (best_val_cider v)); simpl.
  - by split_and!.
  - destruct (patience v + 1 =? 5)%Z; destruct (use_rl v); simpl;
      by split_and!.
Qed.

Lemma train_loop_locals (I : loop_vars → Prop) :
  (∀ t v t' v' r, I v → train_epoch t v = Ok (t', v', r) → I v') →
  ∀ fuel t v, I v → I (locals (train_loop fuel t v)).
Proof.
  intros Hstep fuel. induction fuel as [|n IH]; intros t v Hv; simpl.
  { done. }
  destruct (train_epoch t v) as [[[t' v'] r]|] eqn:E; simpl; [|done].
  pose proof (Hstep _ _ _ _ _ Hv E) as Hv'.
  destruct (exit_train (decided r)); simpl; [done|]. by apply IH.
Qed.

Lemma saved_val_cider (x c : float) (v : loop_vars) (t : Trainer) :
  checkpoint_dict (dict_for_updating x c v) t !! "val_cider"
  = Some (VFloat c)
  ∧ checkpoint_dict (dict_for_updating x c v) t !! "val_loss"
    = Some (VFloat x).
Proof.
  unfold checkpoint_dict.
  split; apply lookup_union_Some_l; unfold dict_for_updating;
    by dict_lookup.
Qed.

(** X1.  [best_test_cider] is never assigned in the loop: every checkpoint a run
    persists records the value the run started with, and the run ends with
    it. *)
Theorem best_test_cider_never_updated (fuel : nat) (t : Trainer)
    (v : loop_vars) :
  Forall (λ e, best_test_cider (vars (decided e)) = best_test_cider v
               ∧ saved e !! "best_test_cider"
                 = Some (VFloat (best_test_cider v)))
         (reports (train_loop fuel t v))
  ∧ best_test_cider (locals (train_loop fuel t v)) = best_test_cider v.
Proof.
  split.
  - apply (train_loop_Forall (λ v', best_test_cider v' = best_test_cider v));
      [|done].
    intros t0 v0 t' v' r Hv E.
    apply train_epoch_inv in E
      as (t1 & x & t2 & _ & Hd & -> & _ & Hs & _).
    destruct (policy_scores v0 (val_cider r)) as (Ht & _).
    rewrite <- Hd in Ht.
    destruct (saved_scalars x (val_cider r) (vars (decided r)) t2)
      as (_ & _ & _ & St & _).
    rewrite <- Hs in St. rewrite St, Ht, Hv. done.
  - apply (train_loop_locals
             (λ v', best_test_cider v' = best_test_cider v)); [|done].
    intros t0 v0 t' v' r Hv E.
    apply train_epoch_report in E as [Hd ->].
    destruct (policy_scores v0 (val_cider r)) as (Ht & _).
    by rewrite Hd, Ht.
Qed.

(** X2.  The phase never goes back: a run that starts in the RL phase stays in
    it and never switches, and any run switches at most once. *)
Theorem phase_switches_at_most_once (fuel : nat) (t : Trainer)
    (v : loop_vars) :
  (use_rl v = true →
   Forall (λ e, use_rl (vars (decided e)) = true
                ∧ switch_to_rl (decided e) = false)
          (reports (train_loop fuel t v)))
  ∧ (length (filter (λ e, switch_to_rl (decided e) = true)
                    (reports (train_loop fuel t v))) ≤ 1)%nat.
Proof.
  assert (∀ fuel t v, use_rl v = true →
            Forall (λ e, use_rl (vars (decided e)) = true
                         ∧ switch_to_rl (decided e) = false)
                   (reports (train_loop fuel t v))) as RL.
  { intros fuel0 t0 v0. apply (train_loop_Forall (λ v', use_rl v' = true)).
    intros t1 v1 t' v' r Hv E.
    apply train_epoch_report in E as [Hd ->].
    destruct (policy_scores v1 (val_cider r)) as (_ & _ & _ & Hu).
    rewrite <- Hd in Hu. destruct (Hu Hv). by split. }
  split; [apply RL|].
  revert t v. induction fuel as [|n IH]; intros t v; [simpl; lia|].
  pose proof (train_loop_reports (S n) t v) as R.
  destruct (reports (train_loop (S n) t v)) as [|e rest]; [simpl; lia|].
  destruct R as (Hd & fuel' & t' & [= <-] & R).
  rewrite filter_cons.
  destruct (exit_train (decided e)).
  { destruct R as [-> _]. case_decide; simpl; lia. }
  destruct R as [-> _].
  case_decide as S; [|apply IH].
  destruct (policy_flags v (val_cider e)) as (_ & _ & _ & Hsw & _).
  rewrite <- Hd in Hsw. destruct (Hsw S) as (_ & U & _).
  pose proof (RL n t' _ U) as F.
  rewrite length_cons.
  assert (filter (λ e0, switch_to_rl (decided e0) = true)
                 (reports (train_loop n t' (vars (decided e)))) = [])
    as ->; [|simpl; lia].
  induction F as [|e0 l [_ Hns] F IHF]; [done|].
  rewrite filter_cons. case_decide; [congruence|done].
Qed.

(** X3.  The epoch counter: the [k]-th checkpoint a run persists records the
    starting counter plus [k], and the run leaves the counter at the
    starting value plus the number of completed iterations, less one when
    the loop was left through [break] (which skips the increment). *)
Theorem epoch_counter_of_run (fuel : nat) (t : Trainer) (v : loop_vars) :
  (∀ k e, reports (train_loop fuel t v) !! k = Some e →
          saved e !! "epoch" = Some (VInt (epoch t + Z.of_nat k)))
  ∧ epoch (trainer (train_loop fuel t v))
    = epoch t + Z.of_nat (length (reports (train_loop fuel t v)))
      - match outcome (train_loop fuel t v) with
        | Exited => 1
        | _ => 0
        end.
Proof.
  revert t v. induction fuel as [|n IH]; intros t v; simpl.
  { split; [done|]. lia. }
  destruct (train_epoch t v) as [[[t' v'] r]|] eqn:E; simpl.
  2:{ split; [done|]. lia. }
  apply train_epoch_inv in E
    as (t1 & x & t2 & Ep & _ & _ & P & Hs & _ & _ & He & _).
  apply epoch_passes_frame in Ep as [Fe _].
  destruct (persisted_from_frame _ _ _ P) as (Pe & _).
  destruct (saved_scalars x (val_cider r) v' t2)
    as (_ & _ & _ & _ & Se & _).
  rewrite <- Hs, Pe, Fe in Se.
  destruct (exit_train (decided r)); simpl.
  - split.
    + intros [|k] e; simpl; [|done]. intros [= <-].
      by rewrite Z.add_0_r.
    + lia.
  - destruct (IH t' v') as [IH1 IH2]. split.
    + intros [|k] e; simpl.
      * intros [= <-]. by rewrite Z.add_0_r.
      * intros Hk. rewrite (IH1 _ _ Hk), He. do 2 f_equal. lia.
    + rewrite IH2, He. lia.
Qed.

Lemma train_epoch_best_slot (t t' : Trainer) (v v' : loop_vars)
    (r : epoch_report) :
  train_epoch t v = Ok (t', v', r) →
  (best (decided r) = true → best_slot_current t' v')
  ∧ (best (decided r) = false → best_slot_current t v →
     best_slot_current t' v').
Proof.
  intros E. apply train_epoch_inv in E
    as (t1 & x & t2 & _ & Hd & -> & _ & Hs & _ & Hb & _).
  destruct (policy_scores v (val_cider r)) as (_ & Bt & Bf & _).
  rewrite <- Hd in Bt, Bf.
  destruct (saved_scalars x (val_cider r) (vars (decided r)) t2)
    as (_ & _ & Sb & _).
  destruct (saved_val_cider x (val_cider r) (vars (decided r)) t2)
    as (Sv & _).
  rewrite <- Hs in Sb, Sv.
  unfold best_slot_current. split; intros B; rewrite B in Hb.
  - exists (saved r). rewrite Sb, Sv, (Bt B). by rewrite Hb.
  - intros (c & Hc & ? & ?). exists c. rewrite Hb, (Bf B). done.
Qed.

(** X4.  The best slot follows the best score: once the best slot is current,
    or as soon as an epoch of the run is marked best, the checkpoint in the
    best slot is one whose validation CIDEr equals [best_val_cider]; this
    is the checkpoint a later switch rolls back to. *)
Theorem best_slot_tracks_best_score (fuel : nat) (t : Trainer)
    (v : loop_vars) :
  best_slot_current t v
  ∨ Exists (λ e, best (decided e) = true) (reports (train_loop fuel t v)) →
  best_slot_current (trainer (train_loop fuel t v))
                    (locals (train_loop fuel t v)).
Proof.
  revert t v. induction fuel as [|n IH]; intros t v; simpl.
  { intros [?|X]; [done|]. by apply Exists_nil in X. }
  destruct (train_epoch t v) as [[[t' v'] r]|] eqn:E; simpl.
  2:{ intros [?|X]; [done|]. by apply Exists_nil in X. }
  apply train_epoch_best_slot in E as [Bt Bf].
  destruct (best (decided r)) eqn:B.
  - specialize (Bt eq_refl).
    destruct (exit_train (decided r)); simpl; [done|].
    intros _. apply IH. by left.
  - specialize (Bf eq_refl).
    destruct (exit_train (decided r)); simpl.
    + intros [?|X]; [by apply Bf|].
      apply Exists_cons in X as [X|X]; [congruence|].
      by apply Exists_nil in X.
    + intros [?|X]; [apply IH; left; by apply Bf|].
      apply Exists_cons in X as [X|X]; [congruence|].
      apply IH. by right.
Qed.

(** X5.  Resuming after a completed iteration: [train] started in a new process
    on the disk that iteration left reads back the locals of the loop, the
    optimizer, the scheduler and the generators as they were when the
    iteration persisted them.  The epoch counter it reads is the one of the
    completed iteration, so unless that iteration left the loop the resumed
    run is one behind the run that went on. *)
Theorem resume_after_iteration (t t' t0 : Trainer) (v v' : loop_vars)
    (r : epoch_report) :
  train_epoch t v = Ok (t', v', r) →
  fs t0 = fs t' →
  ∃ t1,
    train_init (Some last_model_path) t0 = Ok (t1, v')
    ∧ optim t1 = optim t' ∧ scheduler t1 = scheduler t'
    ∧ rng t1 = rng t'
    ∧ model t1 = load_state_dict_lenient (model t') (model t0)
    ∧ epoch t1 = epoch t
    ∧ (exit_train (decided r) = false → epoch t' = epoch t1 + 1).
Proof.
  intros E F. apply train_epoch_inv in E
    as (t1 & x & t2 & Ep & _ & _ & P & Hs & Hl & _ & He & Hm & Ho & Hsc
        & Hr).
  rewrite Hs, <- F in Hl.
  eexists. split; [by apply (resume_from_saved t2 t0 x (val_cider r) v')|].
  apply epoch_passes_frame in Ep as [Fe _].
  destruct (persisted_from_frame _ _ _ P) as (Pe & _).
  simpl. rewrite Hm, Ho, Hsc, Hr, Pe, Fe.
  split_and!; try done.
  intros X. by rewrite X in He.
Qed.

(** X6.  [train] asked to resume from a path that is a directory starts fresh
    without a word, since [os.path.isfile] fails; asked to resume from a
    file that [torch.load] rejects it raises before the first epoch, and
    nothing has changed. *)
Theorem resume_from_unusable_path (fname : string) (fuel : nat)
    (t : Trainer) :
  (fs t !! fname = Some Directory →
   train (Some fname) fuel t = train_loop fuel t fresh_vars)
  ∧ (fs t !! fname = Some Garbage →
     reports (train (Some fname) fuel t) = []
     ∧ outcome (train (Some fname) fuel t) = Raised (UnpicklingError fname)
     ∧ trainer (train (Some fname) fuel t) = t).
Proof.
  split; intros E; unfold train, train_init, os_path_isfile; rewrite E.
  - done.
  - unfold load_checkpoint. rewrite E. done.
Qed.

(** ** More on the checkpoint store *)

(** X8.  When [load_checkpoint] returns a dict, the file was a pickle holding
    every key that [save_checkpoint] captures and every scalar [train]
    supplies (a file lacking one of them raises instead); the returned dict
    has exactly the seven keys [train] reads, with the file's values; and
    the optimizer, the scheduler, the epoch counter and the disk of the
    trainer are untouched. *)
Theorem load_checkpoint_success (fname : string) (t t' : Trainer)
    (loaded : gmap string value) :
  load_checkpoint fname t = Ok (t', Some loaded) →
  ∃ c,
    fs t !! fname = Some (Pickle c)
    ∧ Forall (λ k, is_Some (c !! k)) (captured_keys ++ supplied_keys)
    ∧ dom loaded
      = list_to_set ["use_rl"; "best_val_cider"; "best_test_cider";
                     "patience"; "epoch"; "optimizer"; "scheduler"]
    ∧ (∀ k, k ∈ dom loaded → loaded !! k = c !! k)
    ∧ optim t' = optim t ∧ scheduler t' = scheduler t
    ∧ epoch t' = epoch t ∧ fs t' = fs t.
Proof.
  intros E.
  destruct (load_checkpoint_frame _ _ _ _ E) as (Ho & Hs & _ & He & Hf).
  revert E. unfold load_checkpoint.
  destruct (fs t !! fname) as [[| |c]|]; simpl; try done.
  unbind. unfold getitem.
  destruct (c !! "torch_rng_state") as [[]|] eqn:K1; simpl; try done.
  destruct (c !! "cuda_rng_state") as [[]|] eqn:K2; simpl; try done.
  destruct (c !! "numpy_rng_state") as [[]|] eqn:K3; simpl; try done.
  destruct (c !! "random_rng_state") as [[]|] eqn:K4; simpl; try done.
  destruct (c !! "state_dict") as [[]|] eqn:K5; simpl; try done.
  destruct (c !! "epoch") as [?|] eqn:K6; simpl; try done.
  destruct (c !! "val_loss") as [?|] eqn:K7; simpl; try done.
  destruct (c !! "best_val_cider") as [?|] eqn:K8; simpl; try done.
  destruct (c !! "best_test_cider") as [?|] eqn:K9; simpl; try done.
  destruct (c !! "use_rl") as [?|] eqn:K10; simpl; try done.
  destruct (c !! "patience") as [?|] eqn:K11; simpl; try done.
  destruct (c !! "optimizer") as [?|] eqn:K12; simpl; try done.
  destruct (c !! "scheduler") as [?|] eqn:K13; simpl; try done.
  intros [= _ <-]. exists c. split; [done|]. split.
  { unfold captured_keys, supplied_keys. simpl.
    repeat constructor; by eexists. }
  split.
  { rewrite !dom_insert_L, dom_empty_L. simpl. set_solver. }
  split; [|done].
  intros k Hk. rewrite !dom_insert_L, dom_empty_L in Hk.
  repeat (apply elem_of_union in Hk as [->%elem_of_singleton|Hk];
          [by dict_lookup|]).
  set_solver.
Qed.

(** X9.  [save_checkpoint] writes the last slot and nothing else: every other
    path and every attribute of the trainer is as before; an entry of the
    caller's dict wins over the value [save_checkpoint] captures under the
    same key; and a second call replaces the file of the first. *)
Theorem save_checkpoint_overwrites_last_slot (d1 d2 : gmap string value)
    (t : Trainer) :
  (∀ p, p ≠ last_model_path →
        fs (save_checkpoint d1 t) !! p = fs t !! p)
  ∧ with_fs (fs t) (save_checkpoint d1 t) = t
  ∧ (∀ k x, d1 !! k = Some x →
            ∃ c, fs (save_checkpoint d1 t) !! last_model_path
                 = Some (Pickle c) ∧ c !! k = Some x)
  ∧ save_checkpoint d2 (save_checkpoint d1 t) = save_checkpoint d2 t.
Proof.
  unfold save_checkpoint. split_and!.
  - intros p Hp. simpl. by rewrite lookup_insert_ne.
  - by destruct t.
  - intros k x Hk. eexists. simpl. rewrite lookup_insert_eq.
    split; [done|]. by apply lookup_supplied.
  - unfold with_fs, checkpoint_dict, dict_for_saving. simpl.
    by rewrite insert_insert_eq.
Qed.

(** X10.  The two slots are different files whatever the configuration, so the
    promotion of the last checkpoint never copies a file onto itself. *)
Theorem slots_are_distinct_files (t t' : Trainer) (d : gmap string value) :
  last_model_path ≠ best_model_path
  ∧ (fs t !! last_model_path = Some (Pickle d) →
     copyfile last_model_path best_model_path t = Ok t' →
     fs t' !! last_model_path = Some (Pickle d)
     ∧ fs t' !! best_model_path = Some (Pickle d)).
Proof.
  pose proof last_best_distinct as D. split; [done|].
  intros E. unfold copyfile. rewrite E. intros [= <-]. simpl.
  by rewrite lookup_insert_ne, lookup_insert_eq.
Qed.

(** ** The checkpoint methods of [BaseTrainer] *)

(** X11.  [BaseTrainer.load_checkpoint] hands back the whole dict that
    [BaseTrainer.save_checkpoint] wrote, whatever the caller's dict holds
    besides the captured keys, even an empty one.  [Trainer.load_checkpoint]
    on the same file raises [KeyError] when the caller's dict lacks
    ['val_loss']: the base class's checkpoints need the scalars of [train]
    to be loadable by the captioning trainer. *)
Theorem base_checkpoint_roundtrip (t : Trainer) (upd : gmap string value) :
  Forall (λ k, upd !! k = None) captured_keys →
  (∃ t', base_load_checkpoint base_last_model_path
           (base_save_checkpoint upd t)
         = Ok (t', Some (checkpoint_dict upd t))
         ∧ optim t' = optim t ∧ scheduler t' = scheduler t
         ∧ epoch t' = epoch t)
  ∧ (upd !! "val_loss" = None →
     load_checkpoint base_last_model_path (base_save_checkpoint upd t)
     = Raise (KeyError "val_loss")).
Proof.
  intros Hc. unfold captured_keys in Hc.
  repeat match goal with
  | F : Forall _ (_ :: _) |- _ => inversion_clear F
  end.
  set (c := checkpoint_dict upd t).
  assert (c !! "torch_rng_state" = Some (VRng (torch_rng (rng t)))) as L1
    by (subst c; captured_lookup; unfold dict_for_saving; by dict_lookup).
  assert (c !! "cuda_rng_state" = Some (VRng (cuda_rng (rng t)))) as L2
    by (subst c; captured_lookup; unfold dict_for_saving; by dict_lookup).
  assert (c !! "numpy_rng_state" = Some (VRng (numpy_rng (rng t)))) as L3
    by (subst c; captured_lookup; unfold dict_for_saving; by dict_lookup).
  assert (c !! "random_rng_state" = Some (VRng (random_rng (rng t)))) as L4
    by (subst c; captured_lookup; unfold dict_for_saving; by dict_lookup).
  assert (c !! "state_dict" = Some (VStateDict (model t))) as L5
    by (subst c; captured_lookup; unfold dict_for_saving; by dict_lookup).
  assert (c !! "epoch" = Some (VInt (epoch t))) as L6
    by (subst c; captured_lookup; unfold dict_for_saving; by dict_lookup).
  assert (upd !! "val_loss" = None → c !! "val_loss" = None) as L7.
  { intros E. subst c. unfold checkpoint_dict. rewrite lookup_union_r by done.
    unfold dict_for_saving. by dict_lookup. }
  split.
  - eexists. unfold base_load_checkpoint, base_save_checkpoint. simpl fs.
    rewrite lookup_insert_eq. simpl torch_load. unbind. unfold getitem.
    fold c. rewrite L1, L2, L3, L4, L5, L6. simpl. done.
  - intros E. unfold load_checkpoint, base_save_checkpoint. simpl fs.
    rewrite lookup_insert_eq. simpl torch_load. unbind. unfold getitem.
    fold c. rewrite L1, L2, L3, L4, L5, L6, (L7 E). done.
Qed.

(** ** Evaluation *)

(** X12.  A loader that yields no batch: [evaluate_loss] divides by its length
    and raises, [evaluate_metrics] scores two empty mappings.  On any other
    loader [evaluate_loss] returns and only the generators have moved.  An
    iteration of the supervised phase whose validation loader is empty
    therefore raises after its training pass, before anything is
    persisted. *)
Theorem evaluation_on_empty_loader (dl : DataLoader) (t : Trainer)
    (v : loop_vars) :
  ((iterate dl (rng t)).1 = [] →
   evaluate_loss dl t = Raise ZeroDivisionError
   ∧ evaluate_metrics dl t
     = (with_rng (iterate dl (rng t)).2 t, compute_scores ∅ ∅))
  ∧ ((iterate dl (rng t)).1 ≠ [] →
     ∃ x, evaluate_loss dl t = Ok (with_rng (iterate dl (rng t)).2 t, x))
  ∧ (use_rl v = false →
     (∀ r, (iterate val_dataloader r).1 = []) →
     train_epoch t v = Raise ZeroDivisionError).
Proof.
  split_and!.
  - intros E. unfold evaluate_loss, evaluate_metrics.
    destruct (iterate dl (rng t)) as [samples r]. simpl in E. subst samples.
    done.
  - intros E. unfold evaluate_loss.
    destruct (iterate dl (rng t)) as [samples r]. simpl in *.
    rewrite bool_decide_eq_false_2; [by eexists|].
    by destruct samples.
  - intros U E. unfold train_epoch, epoch_passes. rewrite U. simpl. unbind.
    unfold evaluate_loss. specialize (E (rng (train_xe t))).
    destruct (iterate val_dataloader (rng (train_xe t))) as [samples r].
    simpl in E. by subst samples.
Qed.

Lemma groupby_keys_cons (k : string) (l : list string) :
  groupby_keys (k :: l)
  = match l with
    | k' :: _ => if bool_decide (k = k') then groupby_keys l
                 else k :: groupby_keys l
    | [] => [k]
    end.
Proof. by destruct l. Qed.

Lemma groupby_keys_head (l : list string) :
  head (groupby_keys l) = head l.
Proof.
  induction l as [|k l IH]; [done|].
  rewrite groupby_keys_cons. destruct l as [|k' l]; [done|].
  case_bool_decide as E; [|done]. rewrite IH. simpl. by rewrite E.
Qed.

Lemma groupby_keys_adjacent_distinct (l : list string) :
  adjacent_distinct (groupby_keys l).
Proof.
  induction l as [|k l IH]; [done|].
  rewrite groupby_keys_cons. destruct l as [|k' l]; [done|].
  case_bool_decide as E; [done|].
  pose proof (groupby_keys_head (k' :: l)) as Hh.
  destruct (groupby_keys (k' :: l)) as [|k'' g]; [done|].
  simpl in Hh. injection Hh as ->. by split.
Qed.

Lemma groupby_keys_fixed (l : list string) :
  adjacent_distinct l → groupby_keys l = l.
Proof.
  induction l as [|k l IH]; [done|].
  rewrite groupby_keys_cons. destruct l as [|k' l]; [done|].
  intros [Hne Hl]. rewrite bool_decide_eq_false_2 by done.
  by rewrite IH.
Qed.

(** X13.  The collapse of stuttered words before scoring: the result has no two
    equal neighbours, keeps the first word and the set of words, changes
    nothing in a caption without stutter, and applying it twice is the
    same as applying it once. *)
Theorem groupby_keys_collapses_runs (l : list string) :
  adjacent_distinct (groupby_keys l)
  ∧ head (groupby_keys l) = head l
  ∧ (∀ k, k ∈ groupby_keys l ↔ k ∈ l)
  ∧ (adjacent_distinct l → groupby_keys l = l)
  ∧ groupby_keys (groupby_keys l) = groupby_keys l.
Proof.
  split_and!.
  - apply groupby_keys_adjacent_distinct.
  - apply groupby_keys_head.
  - induction l as [|k l IH]; [done|]. intros x.
    rewrite groupby_keys_cons. destruct l as [|k' l]; [done|].
    case_bool_decide as E.
    + rewrite IH. subst k'. rewrite !elem_of_cons. tauto.
    + rewrite (elem_of_cons (groupby_keys _)), IH, !elem_of_cons. done.
  - apply groupby_keys_fixed.
  - apply groupby_keys_fixed, groupby_keys_adjacent_distinct.
Qed.

(** ** The keys of the scoring dictionaries *)

Lemma pretty_N_go_underscore_free (x : N) (s : string) :
  underscore_free s → underscore_free (pretty_N_go x s).
Proof.
  revert s. induction (N.lt_wf_0 x) as [x _ IH]; intros s Hs.
  destruct (decide (x = 0)%N) as [->|Hx]; [by rewrite pretty_N_go_0|].
  rewrite pretty_N_go_step by lia. apply IH.
  - apply N.div_lt; lia.
  - split; [|done]. unfold pretty_N_char. by repeat case_match.
Qed.

Lemma pretty_nat_underscore_free (n : nat) : underscore_free (pretty n).
Proof.
  unfold pretty, pretty_nat, pretty, pretty_N.
  case_decide; [by split|]. by apply pretty_N_go_underscore_free.
Qed.

Lemma split_at_underscore (a a' b b' : string) :
  underscore_free a → underscore_free a' →
  a +:+ String "_" b = a' +:+ String "_" b' → a = a' ∧ b = b'.
Proof.
  revert a'. induction a as [|c a IH]; intros [|c' a']; simpl.
  - by intros _ _ [= ->].
  - intros _ [Hc _] [= <-]. done.
  - intros [Hc _] _ [= ->]. done.
  - intros [_ Ha] [_ Ha'] [= -> E].
    destruct (IH _ Ha Ha' E) as [-> ->]. done.
Qed.

Lemma sample_key_inj (it i it' i' : nat) :
  sample_key it i = sample_key it' i' → it = it' ∧ i = i'.
Proof.
  unfold sample_key. intros E.
  apply split_at_underscore in E as [E1 E2];
    try apply pretty_nat_underscore_free.
  split; by apply (inj pretty).
Qed.

(** Inserting the elements of a list under the keys of one batch. *)
Lemma foldl_insert_indexed {V X} (f : X → V) (it : nat) (l : list X)
    (s : nat) (m : gmap string V) (it' i' : nat) :
  foldl (λ (m : gmap string V) (e : nat * X),
           <[sample_key it e.1 := f e.2]> m) m (zip (seq s (length l)) l)
  !! sample_key it' i'
  = match (if decide (it' = it ∧ s ≤ i')%nat then l !! (i' - s)%nat
           else None) with
    | Some x => Some (f x)
    | None => m !! sample_key it' i'
    end.
Proof.
  revert s m. induction l as [|x l IH]; intros s m; simpl.
  { by case_decide. }
  rewrite IH. clear IH.
  destruct (decide (it' = it ∧ i' = s)) as [[-> ->]|Hne].
  - rewrite decide_False by lia. rewrite decide_True by lia.
    rewrite Nat.sub_diag. simpl. by rewrite lookup_insert_eq.
  - rewrite lookup_insert_ne.
    2:{ intros [-> ->]%sample_key_inj. by apply Hne. }
    destruct (decide (it' = it ∧ S s ≤ i')%nat) as [[-> Hs]|Hs].
    + rewrite decide_True by lia.
      replace (i' - s)%nat with (S (i' - S s)) by lia. done.
    + destruct (decide (it' = it ∧ s ≤ i')%nat) as [[-> Hs']|Hs'];
        [|done].
      assert (i' = s) as -> by lia. by destruct Hne.
Qed.

Lemma add_batch_projections (it : nat) (caps_gt caps_gen : list (list string))
    (acc : caption_dicts) :
  add_batch it caps_gt caps_gen acc
  = (foldl (λ (m : gmap string (list string))
              (e : nat * (list string * list string)),
              <[sample_key it e.1 := [join_words (groupby_keys e.2.2)]]> m)
           acc.1 (enumerate (zip caps_gt caps_gen)),
     foldl (λ (m : gmap string (list string))
              (e : nat * (list string * list string)),
              <[sample_key it e.1 := e.2.1]> m)
           acc.2 (enumerate (zip caps_gt caps_gen))).
Proof.
  unfold add_batch. generalize (enumerate (zip caps_gt caps_gen)).
  intros l. revert acc.
  induction l as [|[i [gts_i gen_i]] l IH]; intros [gen gts]; simpl;
    [done|].
  by rewrite IH.
Qed.

Lemma add_batch_lookup (it : nat) (caps_gt caps_gen : list (list string))
    (acc : caption_dicts) (it' i' : nat) :
  (add_batch it caps_gt caps_gen acc).1 !! sample_key it' i'
  = match (if decide (it' = it) then zip caps_gt caps_gen !! i'
           else None) with
    | Some p => Some [join_words (groupby_keys p.2)]
    | None => acc.1 !! sample_key it' i'
    end
  ∧ (add_batch it caps_gt caps_gen acc).2 !! sample_key it' i'
    = match (if decide (it' = it) then zip caps_gt caps_gen !! i'
             else None) with
      | Some p => Some p.1
      | None => acc.2 !! sample_key it' i'
      end.
Proof.
  rewrite add_batch_projections. unfold enumerate. simpl.
  rewrite (foldl_insert_indexed
             (λ p : list string * list string,
                [join_words (groupby_keys p.2)])),
          (foldl_insert_indexed (λ p : list string * list string, p.1)).
  rewrite Nat.sub_0_r.
  destruct (decide (it' = it)) as [->|Hne].
  - by rewrite decide_True by (split; [done|lia]).
  - by rewrite decide_False by (intros [? _]; done).
Qed.

Lemma collect_fold_lookup (dl : DataLoader) (w : gmap string tensor)
    (l : list batch) (s : nat) (acc : caption_dicts) (it' i' : nat) :
  let r := foldl (λ (a : caption_dicts) (e : nat * batch),
                    let '(it, sample) := e in
                    let caps_gen :=
                      beam_search_eval w sample (batch_size dl)
                                       evaluating_beam_size in
                    add_batch it (captions sample) caps_gen a)
                 acc (zip (seq s (length l)) l) in
  let hit := match (if decide (s ≤ it')%nat then l !! (it' - s)%nat
                    else None) with
             | Some sample =>
                 zip (captions sample)
                     (beam_search_eval w sample (batch_size dl)
                                       evaluating_beam_size) !! i'
             | None => None
             end in
  r.1 !! sample_key it' i'
  = match hit with
    | Some p => Some [join_words (groupby_keys p.2)]
    | None => acc.1 !! sample_key it' i'
    end
  ∧ r.2 !! sample_key it' i'
    = match hit with
      | Some p => Some p.1
      | None => acc.2 !! sample_key it' i'
      end.
Proof.
  revert s acc. induction l as [|sample l IH]; intros s acc; simpl.
  { by case_decide. }
  destruct (IH (S s)
              (add_batch s (captions sample)
                 (beam_search_eval w sample (batch_size dl)
                    evaluating_beam_size) acc)) as [IH1 IH2].
  simpl in IH1, IH2. rewrite IH1, IH2. clear IH IH1 IH2.
  destruct (add_batch_lookup s (captions sample)
              (beam_search_eval w sample (batch_size dl)
                 evaluating_beam_size) acc it' i') as [A1 A2].
  rewrite A1, A2. clear A1 A2.
  destruct (decide (it' = s)) as [->|Hne].
  - rewrite decide_False by lia. rewrite decide_True by lia.
    rewrite Nat.sub_diag. simpl. done.
  - destruct (decide (S s ≤ it')%nat) as [Hs|Hs].
    + rewrite decide_True by lia.
      replace (it' - s)%nat with (S (it' - S s)) by lia. simpl.
      by destruct (l !! (it' - S s)%nat) as [sample'|];
        [destruct (zip _ _ !! i')|].
    + by rewrite decide_False by lia.
Qed.

(** X14.  The two scoring dictionaries, entry by entry.  Distinct (batch,
    position) pairs have distinct keys, so no sample overwrites another.
    Under the key of position [i] of batch [it] the generated mapping
    holds the one caption generated for that sample, stutter collapsed and
    joined by blanks, and the reference mapping holds that sample's
    references.  The key is present exactly when both the reference list
    and the generated list of the batch reach position [i]: a sample for
    which the model returned no caption is left out of both, without an
    error. *)
Theorem scoring_entries (dl : DataLoader) (w : gmap string tensor)
    (samples : list batch) (it i : nat) :
  let hit := match samples !! it with
             | Some sample =>
                 zip (captions sample)
                     (beam_search_eval w sample (batch_size dl)
                                       evaluating_beam_size) !! i
             | None => None
             end in
  (∀ it' i', sample_key it i = sample_key it' i' → it = it' ∧ i = i')
  ∧ (collect_captions dl w samples).1 !! sample_key it i
    = (λ p : list string * list string,
         [join_words (groupby_keys p.2)]) <$> hit
  ∧ (collect_captions dl w samples).2 !! sample_key it i
    = (λ p : list string * list string, p.1) <$> hit.
Proof.
  split; [intros it' i'; apply sample_key_inj|].
  unfold collect_captions, enumerate.
  destruct (collect_fold_lookup dl w samples 0 (∅, ∅) it i) as [C1 C2].
  simpl in C1, C2. rewrite C1, C2. clear C1 C2.
  rewrite Nat.sub_0_r.
  destruct (samples !! it) as [sample|]; simpl; [|done].
  by destruct (zip _ _ !! i).
Qed.

(** ** Predictions *)

Section PredictionProperties.
Context {source : PredictionSource}.

(** X15.  [get_predictions] raises only while loading a checkpoint file that
    exists; without one the trainer is untouched.  It returns one record
    per sample, in the order of the dataset, carrying the sample's image
    id and file name; the generated and the reference mapping of a record
    have the same keys, all built from the sample's own position; the
    generated caption is the tokenized collapse of the decoded words; and
    the scores are absent exactly when [get_scores] is false. *)
Theorem get_predictions_records (dataset : list item)
    (checkpoint_filename : option string) (get_scores : bool)
    (t : Trainer) :
  match get_predictions dataset checkpoint_filename get_scores t with
  | Raise _ =>
      ∃ fname, checkpoint_filename = Some fname
               ∧ os_path_isfile (fs t) fname = true
  | Ok (t', preds) =>
      length preds = length dataset
      ∧ ((∀ fname, checkpoint_filename = Some fname →
                   os_path_isfile (fs t) fname = false) → t' = t)
      ∧ optim t' = optim t ∧ scheduler t' = scheduler t
      ∧ epoch t' = epoch t ∧ fs t' = fs t
      ∧ ∀ k sample, dataset !! k = Some sample →
          ∃ p, preds !! k = Some p
               ∧ p_image_id p = image_id sample
               ∧ p_filename p = filename sample
               ∧ dom (p_gens p) = dom (p_gts p)
               ∧ (p_scores p = None ↔ get_scores = false)
               ∧ ∀ k' i,
                   p_gens p !! sample_key k' i
                   = (λ q : list string * list string,
                        [tokenize_caption
                           (join_words (groupby_keys q.2))])
                     <$> (if decide (k' = k)
                          then zip (item_captions sample)
                                   (beam_search_item (model t') sample
                                      evaluating_beam_size) !! i
                          else None)
  end.
Proof.
  unfold get_predictions. unbind.
  set (loaded := match checkpoint_filename with
                 | Some fname => _
                 | None => Ok t
                 end).
  assert (match loaded with
          | Raise _ => ∃ fname, checkpoint_filename = Some fname
                                ∧ os_path_isfile (fs t) fname = true
          | Ok t1 =>
              ((∀ fname, checkpoint_filename = Some fname →
                         os_path_isfile (fs t) fname = false) → t1 = t)
              ∧ optim t1 = optim t ∧ scheduler t1 = scheduler t
              ∧ epoch t1 = epoch t ∧ fs t1 = fs t
          end) as L.
  { subst loaded. destruct checkpoint_filename as [fname|]; [|done].
    destruct (os_path_isfile (fs t) fname) eqn:F; [|done].
    destruct (load_checkpoint fname t) as [[t1 o]|] eqn:E; [|by eexists].
    apply load_checkpoint_frame in E as (? & ? & _ & ? & ?).
    split_and!; try done. intros N. specialize (N fname eq_refl).
    congruence. }
  destruct loaded as [t1|]; [|done].
  destruct L as (L1 & L2 & L3 & L4 & L5).
  split.
  { unfold enumerate.
    by rewrite length_fmap, length_zip_with, length_seq, Nat.min_id. }
  split_and!; try done.
  intros k sample Hk.
  assert (enumerate dataset !! k = Some (k, sample)) as Hz.
  { unfold enumerate. apply lookup_zip_with_Some.
    exists k, sample. split_and!; [done| |done].
    apply lookup_seq. apply lookup_lt_Some in Hk. split; [done|lia]. }
  eexists. split; [by rewrite list_lookup_fmap, Hz|].
  unfold predict_item. simpl fst. simpl snd.
  pose proof (add_batch_dom k (item_captions sample)
                (beam_search_item (model t1) sample evaluating_beam_size)
                (∅, ∅) eq_refl) as D.
  pose proof (λ k' i, proj1 (add_batch_lookup k (item_captions sample)
                (beam_search_item (model t1) sample evaluating_beam_size)
                (∅, ∅) k' i)) as A.
  destruct (add_batch k _ _ _) as [gens gts]. simpl in *.
  split_and!; try done.
  - unfold PTBTokenizer_tokenize. by rewrite !dom_fmap_L.
  - by destruct get_scores.
  - intros k' i. unfold PTBTokenizer_tokenize.
    rewrite lookup_fmap, A.
    destruct (decide (k' = k)); [|done].
    by destruct (zip _ _ !! i).
Qed.

End PredictionProperties.

(** ** The merge into the submission template *)

Lemma fill_item_find (sample_item : gmap string json)
    (results : list result_entry) :
  fill_item sample_item results
  = match results with
    | [] => inr sample_item
    | _ :: _ =>
        match sample_item !! "id" with
        | None => inl (ConvertKeyError "id")
        | Some id =>
            match List.find (λ e, json_eq_str id (e_filename e)) results with
            | None => inr sample_item
            | Some entry =>
                match e_gens_values entry with
                | (caption :: _) :: _ =>
                    inr (<["captions" := JString caption]> sample_item)
                | _ => inl ConvertIndexError
                end
            end
        end
    end.
Proof.
  induction results as [|entry rest IH]; [done|].
  simpl. destruct (sample_item !! "id") as [id|] eqn:E; [|done].
  destruct (json_eq_str id (e_filename entry)); [done|].
  rewrite IH. by destruct rest.
Qed.

Lemma fill_item_again (sample_item filled : gmap string json)
    (results : list result_entry) :
  fill_item sample_item results = inr filled →
  fill_item filled results = inr filled
  ∧ ∀ key, key ≠ "captions" → filled !! key = sample_item !! key.
Proof.
  induction results as [|entry rest IH]; simpl.
  { by intros [= <-]. }
  destruct (sample_item !! "id") as [id|] eqn:E; [|done].
  destruct (json_eq_str id (e_filename entry)) eqn:M.
  - destruct (e_gens_values entry) as [|[|caption ?] ?] eqn:G; try done.
    intros [= <-]. rewrite lookup_insert_ne by done. rewrite E, M.
    rewrite insert_insert_eq. split; [done|].
    intros key Hk. by rewrite lookup_insert_ne.
  - intros F. destruct (IH F) as [IH1 IH2].
    rewrite (IH2 "id") by done. rewrite E, M. done.
Qed.

Lemma fill_items_inv (data out : list (gmap string json))
    (results : list result_entry) :
  fill_items data results = inr out →
  Forall2 (λ sample_item filled, fill_item sample_item results = inr filled)
          data out.
Proof.
  revert out. induction data as [|sample_item data IH]; intros out; simpl.
  { intros [= <-]. constructor. }
  destruct (fill_item sample_item results) as [|filled] eqn:F; [done|].
  destruct (fill_items data results) as [|rest] eqn:R; [done|].
  intros [= <-]. constructor; [done|]. by apply IH.
Qed.

(** X16.  The merge is a first-match lookup: a record of the template receives
    the first caption of the first prediction whose file name equals its
    id, and is left as it is when no prediction has that file name.  A
    record without an id raises [KeyError] as soon as there is at least one
    prediction to compare it with, and a first match without a caption
    raises [IndexError] even when a later prediction of the same file has
    one. *)
Theorem convert_results_first_match (data out : list (gmap string json))
    (results : list result_entry) (split path : string) :
  convert_results data results split = inr (path, out) →
  path = path_join checkpoint_dir (split +:+ "_results.json")
  ∧ Forall2
      (λ sample_item filled,
         inr filled
         = match results with
           | [] => inr sample_item
           | _ :: _ =>
               match sample_item !! "id" with
               | None => inl (ConvertKeyError "id")
               | Some id =>
                   match List.find
                           (λ e, json_eq_str id (e_filename e)) results with
                   | None => inr sample_item
                   | Some entry =>
                       match e_gens_values entry with
                       | (caption :: _) :: _ =>
                           inr (<["captions" := JString caption]>
                                  sample_item)
                       | _ => inl ConvertIndexError
                       end
                   end
               end
           end)
      data out.
Proof.
  unfold convert_results.
  destruct (fill_items data results) as [|filled] eqn:F; [done|].
  intros [= <- <-]. split; [done|].
  apply fill_items_inv in F.
  induction F as [|x y l l' Hxy F IH]; constructor; [|done].
  by rewrite <- fill_item_find.
Qed.

(** X17.  The merge keeps the template: as many records, in the same order, each
    with every field but ["captions"] as it was (so the ids are kept); and
    merging the same predictions into the result again changes nothing. *)
Theorem convert_results_keeps_template (data out : list (gmap string json))
    (results : list result_entry) (split path : string) :
  convert_results data results split = inr (path, out) →
  length out = length data
  ∧ Forall2 (λ sample_item filled,
               ∀ key, key ≠ "captions" →
                      filled !! key = sample_item !! key) data out
  ∧ convert_results out results split = inr (path, out).
Proof.
  unfold convert_results.
  destruct (fill_items data results) as [|filled] eqn:F; [done|].
  intros [= <- <-].
  apply fill_items_inv in F.
  split; [symmetry; by eapply Forall2_length|].
  split.
  - induction F as [|x y l l' Hxy F IH]; constructor; [|done].
    by apply fill_item_again in Hxy as [_ ?].
  - assert (fill_items filled results = inr filled) as ->; [|done].
    induction F as [|x y l l' Hxy F IH]; [done|]. simpl.
    apply fill_item_again in Hxy as [-> _]. by rewrite IH.
Qed.

(** X18.  With no predictions at all the template comes back as it is, ids or
    not; with at least one prediction, a template whose first record has
    no id makes the merge raise [KeyError]. *)
Theorem convert_results_without_predictions
    (data : list (gmap string json)) (sample_item : gmap string json)
    (entry : result_entry) (results : list result_entry)
    (split : string) :
  convert_results data [] split
  = inr (path_join checkpoint_dir (split +:+ "_results.json"), data)
  ∧ (sample_item !! "id" = None →
     convert_results (sample_item :: data) (entry :: results) split
     = inl (ConvertKeyError "id")).
Proof.
  unfold convert_results. split.
  - assert (fill_items data [] = inr data) as ->; [|done].
    induction data as [|x l IH]; [done|]. simpl. by rewrite IH.
  - intros E. simpl. by rewrite E.
Qed.

(** ** More on the training passes *)

(** What the guard of [view] decides. *)
Lemma view_inv {A} (rows cols : Z) (l : list A) :
  match view rows cols l with
  | Ok _ => (rows * cols)%Z = Z.of_nat (length l)
  | Raise e =>
      e = RuntimeError "view"
      ∧ ¬ ((0 ≤ rows)%Z ∧ (0 ≤ cols)%Z
           ∧ (rows * cols)%Z = Z.of_nat (length l))
  end.
Proof.
  unfold view.
  destruct (_ && _) eqn:G.
  - apply andb_prop in G as [_ G3]. by apply Z.eqb_eq in G3.
  - split; [done|]. intros (G1 & G2 & G3).
    apply Z.leb_le in G1, G2. apply Z.eqb_eq in G3.
    by rewrite G1, G2, G3 in G.
Qed.

(** X22.  One batch of the self-critical pass completes exactly when the scorer
    returned [batch_size * training_beam_size] rewards; otherwise (as for a
    last batch that is smaller than the others) [view] raises and the pass
    with it.  A batch that completes shows one more loss and leaves the
    learning rate, the betas, the scheduler, the epoch counter and the disk
    alone. *)
Theorem scst_batch_needs_full_batch (t : Trainer) (shown : list Qc)
    (sample : batch) :
  let bs := batch_size train_dict_dataloader in
  let caps_gen :=
    (beam_search_train (model t) (rng t) sample bs training_beam_size).1.1 in
  let caps_gt :=
    c ← captions sample; replicate (Z.to_nat training_beam_size) c in
  let rewards := cider_reward caps_gt caps_gen in
  match train_scst_batch (t, shown) sample with
  | Ok (t', shown') =>
      (bs * training_beam_size)%Z = Z.of_nat (length rewards)
      ∧ length shown' = S (length shown)
      ∧ lr (optim t') = lr (optim t) ∧ betas (optim t') = betas (optim t)
      ∧ scheduler t' = scheduler t ∧ epoch t' = epoch t ∧ fs t' = fs t
  | Raise e =>
      e = RuntimeError "view"
      ∧ ¬ ((0 ≤ bs)%Z ∧ (0 ≤ training_beam_size)%Z
           ∧ (bs * training_beam_size)%Z = Z.of_nat (length rewards))
  end.
Proof.
  simpl. unfold train_scst_batch.
  destruct (beam_search_train _ _ _ _ _) as [[caps_gen log_probs] r].
  simpl.
  pose proof (view_inv (batch_size train_dict_dataloader)
                training_beam_size
                (cider_reward
                   (c ← captions sample;
                    replicate (Z.to_nat training_beam_size) c) caps_gen))
    as V.
  destruct (view _ _ _) as [reward|e]; unbind; [|done].
  destruct (scst_step _ _ _ _ _) as [w m]. simpl.
  split_and!; try done. rewrite length_app. simpl. lia.
Qed.

Lemma scheduler_step_rate (t : Trainer) :
  sched_bound (scheduler_step t) = sched_bound t
  ∧ base_lr (scheduler (scheduler_step t)) = base_lr (scheduler t)
  ∧ betas (optim (scheduler_step t)) = betas (optim t)
  ∧ lr (optim (scheduler_step t))
    = (if sched_bound t
       then PrimFloat.mul (base_lr (scheduler t))
              (lambda_lr (last_epoch (scheduler (scheduler_step t))))
       else lr (optim t)).
Proof.
  unfold scheduler_step.
  destruct (sched_bound t) eqn:E; simpl; by rewrite ?E.
Qed.

Lemma train_xe_batch_rate (t : Trainer) (sample : batch) :
  sched_bound (train_xe_batch t sample) = sched_bound t
  ∧ base_lr (scheduler (train_xe_batch t sample)) = base_lr (scheduler t)
  ∧ betas (optim (train_xe_batch t sample)) = betas (optim t)
  ∧ lr (optim (train_xe_batch t sample))
    = (if sched_bound t
       then PrimFloat.mul (base_lr (scheduler t))
              (lambda_lr (last_epoch (scheduler (train_xe_batch t sample))))
       else lr (optim t)).
Proof.
  unfold train_xe_batch. destruct (xe_step _ _ _ _) as [[w m] r].
  match goal with
  | |- context [scheduler_step ?x] =>
      destruct (scheduler_step_rate x) as (-> & -> & -> & ->)
  end.
  done.
Qed.

(** X23.  The learning rate over a cross-entropy pass.  While the scheduler
    drives the trainer's optimizer, after a pass of at least one batch the
    learning rate is [base_lr * lambda_lr(last_epoch)] for the step counter
    the pass ended on; once the optimizer has been replaced the pass
    leaves its learning rate alone.  The betas and the scheduler's base
    rate never change. *)
Theorem train_xe_learning_rate (t : Trainer) :
  sched_bound (train_xe t) = sched_bound t
  ∧ base_lr (scheduler (train_xe t)) = base_lr (scheduler t)
  ∧ betas (optim (train_xe t)) = betas (optim t)
  ∧ lr (optim (train_xe t))
    = (if sched_bound t
       then match (iterate train_dataloader (rng t)).1 with
            | [] => lr (optim t)
            | _ :: _ =>
                PrimFloat.mul (base_lr (scheduler t))
                  (lambda_lr (last_epoch (scheduler (train_xe t))))
            end
       else lr (optim t)).
Proof.
  unfold train_xe. destruct (iterate _ _) as [samples r]. simpl.
  assert (∀ l t0,
            sched_bound (foldl train_xe_batch t0 l) = sched_bound t0
            ∧ base_lr (scheduler (foldl train_xe_batch t0 l))
              = base_lr (scheduler t0)
            ∧ betas (optim (foldl train_xe_batch t0 l)) = betas (optim t0)
            ∧ (sched_bound t0 = false →
               lr (optim (foldl train_xe_batch t0 l)) = lr (optim t0))
            ∧ (sched_bound t0 = true →
               lr (optim t0)
               = PrimFloat.mul (base_lr (scheduler t0))
                   (lambda_lr (last_epoch (scheduler t0))) →
               lr (optim (foldl train_xe_batch t0 l))
               = PrimFloat.mul (base_lr (scheduler t0))
                   (lambda_lr
                      (last_epoch (scheduler (foldl train_xe_batch t0 l))))))
    as F.
  { induction l as [|b l IH]; intros t0; simpl; [by split_and!|].
    destruct (IH (train_xe_batch t0 b)) as (I1 & I2 & I3 & I4 & I5).
    destruct (train_xe_batch_rate t0 b) as (B1 & B2 & B3 & B4).
    rewrite I1, I2, I3, B1, B2, B3. split_and!; try done.
    - intros Hb. rewrite I4 by congruence. by rewrite B4, Hb.
    - intros Hb _. rewrite Hb in B4. rewrite <- B2. apply I5.
      + congruence.
      + by rewrite B2. }
  destruct samples as [|b l]; simpl.
  { by destruct (sched_bound t). }
  destruct (F l (train_xe_batch (with_rng r t) b))
    as (I1 & I2 & I3 & I4 & I5).
  destruct (train_xe_batch_rate (with_rng r t) b) as (B1 & B2 & B3 & B4).
  simpl in B1, B2, B3, B4.
  rewrite I1, I2, I3, B1, B2, B3. split_and!; try done.
  destruct (sched_bound t) eqn:Hb.
  - rewrite <- B2. apply I5; [congruence|]. by rewrite B2.
  - rewrite I4 by congruence. done.
Qed.

(** ** Early stopping *)

Lemma policy_epochs_left (v : loop_vars) (m : float) :
  (0 ≤ patience v ≤ 4)%Z →
  best (policy v m) = false →
  (exit_train (policy v m) = true ∧ epochs_left v = 1)
  ∨ (exit_train (policy v m) = false
     ∧ (0 ≤ patience (vars (policy v m)) ≤ 4)%Z
     ∧ epochs_left (vars (policy v m)) = epochs_left v - 1).
Proof.
  intros Hp. unfold policy, epochs_left.
  destruct (geb m (best_val_cider v)); simpl; [done|]. intros _.
  destruct (Z.eqb_spec (patience v + 1) 5) as [E|E];
    destruct (use_rl v); simpl.
  - left. split; [done|lia].
  - right. split_and!; try done; lia.
  - right. split_and!; try done; lia.
  - right. split_and!; try done; lia.
Qed.

(** X7.  Early stopping is bounded.  In a run that starts with patience between
    0 and 4 and in which no epoch improves on the best validation CIDEr,
    at most [10 - patience] epochs run when it starts in the supervised
    phase and at most [5 - patience] when it starts in the RL phase; a run
    that is still looping has used all its fuel, and a run that has left
    the loop through [break] ran exactly that many epochs. *)
Theorem no_improvement_stops_the_run (fuel : nat) (t : Trainer)
    (v : loop_vars) :
  (0 ≤ patience v ≤ 4)%Z →
  Forall (λ e, best (decided e) = false) (reports (train_loop fuel t v)) →
  (Z.of_nat (length (reports (train_loop fuel t v))) ≤ epochs_left v)%Z
  ∧ (outcome (train_loop fuel t v) = Running →
     length (reports (train_loop fuel t v)) = fuel)
  ∧ (outcome (train_loop fuel t v) = Exited →
     Z.of_nat (length (reports (train_loop fuel t v))) = epochs_left v).
Proof.
  assert (∀ v0, (0 ≤ patience v0 ≤ 4)%Z → (0 ≤ epochs_left v0)%Z) as Pos.
  { intros v0 ?. unfold epochs_left. destruct (use_rl v0); lia. }
  revert t v. induction fuel as [|n IH]; intros t v Hp Hb.
  { simpl. split_and!; try done. by apply Pos. }
  revert Hb. simpl.
  destruct (train_epoch t v) as [[[t' v'] r]|] eqn:E; simpl.
  2:{ intros _. split_and!; try done. by apply Pos. }
  apply train_epoch_report in E as [Hd ->].
  destruct (exit_train (decided r)) eqn:X; simpl; intros Hb;
    apply Forall_cons_1 in Hb as [Hbe Hbr]; rewrite Hd in Hbe;
    destruct (policy_epochs_left v (val_cider r) Hp Hbe)
      as [[X' L]|(X' & Hp' & L)]; rewrite <- Hd in *; try congruence.
  - split_and!; try done; lia.
  - destruct (IH t' _ Hp' Hbr) as (I1 & I2 & I3).
    split_and!.
    + lia.
    + intros O. by rewrite (I2 O).
    + intros O. specialize (I3 O). lia.
Qed.

End MoreProperties.

(** * The trainer on explicit inputs *)

Local Abbreviation scripted_train := (@train Toy.carriers Toy.scripted).
Local Abbreviation scripted_epoch := (@train_epoch Toy.carriers Toy.scripted).
Local Abbreviation steady_train := (@train Toy.carriers Toy.steady).
Local Abbreviation last_slot := (@last_model_path Toy.carriers Toy.scripted).
Local Abbreviation toy_fs := (@fs Toy.carriers).
Local Abbreviation toy_reports := (@reports Toy.carriers).
Local Abbreviation toy_outcome := (@outcome Toy.carriers).
Local Abbreviation toy_trainer := (@trainer Toy.carriers).
Local Abbreviation toy_locals := (@locals Toy.carriers).
Local Abbreviation toy_decided := (@decided Toy.carriers).
Local Abbreviation toy_cider := (@val_cider Toy.carriers).

(** A fresh run of the scripted world: the first epoch scores 0.1, the
    later ones 0.05; the switch happens at the sixth epoch and the loop
    ends at the eleventh. *)
Example scripted_run :
  let r := scripted_train None 12 Toy.init in
  toy_cider <$> toy_reports r
  = [0.1; 0.05; 0.05; 0.05; 0.05; 0.05; 0.05; 0.05; 0.05; 0.05; 0.05]%float
  ∧ @phase_patience Toy.carriers <$> toy_reports r
    = [(SUPERVISED, 0); (SUPERVISED, 1); (SUPERVISED, 2); (SUPERVISED, 3);
       (SUPERVISED, 4); (REINFORCEMENT, 0); (REINFORCEMENT, 1);
       (REINFORCEMENT, 2); (REINFORCEMENT, 3); (REINFORCEMENT, 4);
       (REINFORCEMENT, 5)]
  ∧ toy_outcome r = Exited.
Proof. vm_compute. done. Qed.


(** The claim of C2 fails on the code: in the steady world both epochs of
    a fresh run over the two-sample validation set score 0.1, the second
    epoch is marked best again, and patience is 0 after it, not 1. *)
Lemma identical_metrics_patience_not_one :
  let r := steady_train None 2 Toy.init in
  toy_cider <$> toy_reports r = [0.1; 0.1]%float
  ∧ (λ e, best (toy_decided e)) <$> toy_reports r = [true; true]
  ∧ patience (toy_locals r) = 0
  ∧ patience (toy_locals r) ≠ 1.
Proof. vm_compute. by split_and!. Qed.

Lemma identical_metrics_keep_best_witness :
  ∃ e1 e2,
    toy_reports (@train_loop Toy.carriers Toy.steady 2 Toy.init fresh_vars)
    = [e1; e2]
    ∧ best (toy_decided e2) = true
    ∧ best_val_cider (vars (toy_decided e2)) = 0.1%float
    ∧ patience (vars (toy_decided e2)) = 0.
Proof.
  assert (toy_cider <$> toy_reports
            (@train_loop Toy.carriers Toy.steady 2 Toy.init fresh_vars)
          = [0.1; 0.1]%float) as C by (vm_compute; reflexivity).
  destruct (toy_reports
              (@train_loop Toy.carriers Toy.steady 2 Toy.init fresh_vars))
    as [|e1 [|e2 [|e3 rest]]] eqn:E; try discriminate C.
  injection C as C1 C2.
  exists e1, e2. split; [reflexivity|].
  destruct (@identical_metrics_keep_best Toy.carriers Toy.steady Toy.init
              e1 e2 0.1%float E C1 C2)
    as (_ & B2 & _ & V2 & _ & P2); [reflexivity|reflexivity|].
  by split_and!.
Defined.

Lemma save_load_roundtrip_witness :
  ∃ t' loaded,
    @load_checkpoint Toy.carriers last_slot
      (@save_checkpoint Toy.carriers Toy.scripted
         (@dict_for_updating Toy.carriers 1.5%float 0.1%float fresh_vars)
         Toy.init)
    = Ok (t', Some loaded)
    ∧ loaded !! "epoch" = Some (@VInt Toy.carriers 0)
    ∧ loaded !! "best_val_cider" = Some (@VFloat Toy.carriers 0%float)
    ∧ loaded !! "patience" = Some (@VInt Toy.carriers 0)
    ∧ loaded !! "use_rl" = Some (@VBool Toy.carriers false).
Proof.
  destruct (@save_load_roundtrip Toy.carriers Toy.scripted Toy.init
              (@dict_for_updating Toy.carriers 1.5%float 0.1%float
                 fresh_vars))
    as (t' & loaded & E & He & Hb & Hp & Hu).
  - unfold captured_keys. repeat constructor.
  - unfold supplied_keys. repeat constructor; by eexists.
  - exists t', loaded. by split_and!.
Defined.

Lemma missing_checkpoint_starts_fresh_witness :
  toy_fs Toy.init !! "saved_models/nowhere.pth" = None
  ∧ @load_checkpoint Toy.carriers "saved_models/nowhere.pth" Toy.init
    = Ok (Toy.init, None)
  ∧ @train_init Toy.carriers (Some "saved_models/nowhere.pth") Toy.init
    = Ok (Toy.init, fresh_vars)
  ∧ scripted_train (Some "saved_models/nowhere.pth") 3 Toy.init
    = @train_loop Toy.carriers Toy.scripted 3 Toy.init fresh_vars.
Proof.
  assert (toy_fs Toy.init !! "saved_models/nowhere.pth" = None) as E
    by reflexivity.
  destruct (@missing_checkpoint_starts_fresh Toy.carriers Toy.scripted
              Toy.init "saved_models/nowhere.pth" 3 E)
    as (L & I & _ & T & _).
  by split_and!.
Defined.

Lemma last_slot_and_promotion_witness :
  ∃ t' v' r,
    scripted_epoch Toy.init fresh_vars = Ok (t', v', r)
    ∧ toy_fs t' !! last_slot = Some (Pickle (saved r))
    ∧ saved r !! "epoch" = Some (@VInt Toy.carriers 0)
    ∧ best (toy_decided r) = true
    ∧ toy_fs t' !! @best_model_path Toy.carriers Toy.scripted
      = toy_fs t' !! last_slot
    ∧ @model Toy.carriers t' !! "steps" = Some 3
    ∧ saved r !! "state_dict"
      = Some (@VStateDict Toy.carriers (@model Toy.carriers t'))
    ∧ saved r !! "optimizer"
      = Some (@VOptim Toy.carriers (@optim Toy.carriers t')).
Proof.
  assert (match scripted_epoch Toy.init fresh_vars with
          | Ok (t', _, r) =>
              (best (toy_decided r), @model Toy.carriers t' !! "steps")
          | Raise _ => (false, None)
          end = (true, Some 3)) as Hb by (vm_compute; reflexivity).
  destruct (scripted_epoch Toy.init fresh_vars) as [[[t' v'] r]|] eqn:E;
    [|discriminate Hb].
  injection Hb as Hb Hm.
  exists t', v', r.
  destruct (@last_slot_and_promotion Toy.carriers Toy.scripted _ _ _ _ _ E)
    as (L & Ep & _ & _ & _ & B & _ & Sd & So & _).
  split; [reflexivity|]. split; [exact L|]. split; [exact Ep|].
  split; [exact Hb|]. split; [exact (B Hb)|]. split; [exact Hm|].
  split; [exact Sd|exact So].
Defined.

Lemma rl_switch_rollback_witness :
  let r5 := @train_loop Toy.carriers Toy.scripted 5 Toy.init fresh_vars in
  ∃ t' v' r,
    scripted_epoch (toy_trainer r5) (toy_locals r5) = Ok (t', v', r)
    ∧ switch_to_rl (toy_decided r) = true
    ∧ use_rl (toy_locals r5) = false
    ∧ best (toy_decided r) = false
    ∧ @optim Toy.carriers t' = @rl_optimizer Toy.carriers
    ∧ @model Toy.carriers (toy_trainer r5) !! "steps" = Some 15
    ∧ @model Toy.carriers t' !! "steps" = Some 3.
Proof.
  intros r5.
  assert (match scripted_epoch (toy_trainer r5) (toy_locals r5) with
          | Ok (t', _, r) =>
              (switch_to_rl (toy_decided r),
               @model Toy.carriers t' !! "steps")
          | Raise _ => (false, None)
          end = (true, Some 3)) as F by (vm_compute; reflexivity).
  destruct (scripted_epoch (toy_trainer r5) (toy_locals r5))
    as [[[t' v'] r]|] eqn:E; [|discriminate F].
  injection F as S M.
  exists t', v', r.
  destruct (@rl_switch_rollback Toy.carriers Toy.scripted _ _ _ _ _ E S)
    as (t1 & x & _ & U & _ & B & _ & _ & O & _).
  split_and!; try done.
Defined.

Lemma single_beam_zero_signal_witness :
  let reward := [[Q2Qc (1 # 2)]; [Q2Qc (3 # 4)]] in
  let log_probs := [[[Q2Qc (-1); Q2Qc (-2)]]; [[Q2Qc (-3)]]] in
  view 2 1 [Q2Qc (1 # 2); Q2Qc (3 # 4)] = Ok reward
  ∧ reward_baseline reward = reward
  ∧ advantage reward = [[0%Qc]; [0%Qc]]
  ∧ scst_loss log_probs reward = 0%Qc.
Proof.
  intros reward log_probs.
  assert (view 2 1 [Q2Qc (1 # 2); Q2Qc (3 # 4)] = Ok reward) as V
    by reflexivity.
  destruct (single_beam_zero_signal 2 _ log_probs reward V)
    as (B & A & L).
  by split_and!.
Defined.

(** The claim of C9 fails on the code for the RL phase: the self-critical
    pass over the two batches of the scripted world leaves the scheduler's
    step counter where it was. *)
Lemma scst_pass_does_not_step_scheduler :
  ∃ t' shown,
    @train_scst Toy.carriers Toy.scripted Toy.init = Ok (t', shown)
    ∧ length (@iterate Toy.carriers Toy.scripted
                (@train_dict_dataloader Toy.carriers Toy.scripted)
                (@rng Toy.carriers Toy.init)).1 = 2%nat
    ∧ last_epoch (@scheduler Toy.carriers t') = 0
    ∧ last_epoch (@scheduler Toy.carriers t')
      ≠ last_epoch (@scheduler Toy.carriers Toy.init) + 2.
Proof.
  assert (match @train_scst Toy.carriers Toy.scripted Toy.init with
          | Ok (t', _) => Some (last_epoch (@scheduler Toy.carriers t'))
          | Raise _ => None
          end = Some 0) as F by (vm_compute; reflexivity).
  destruct (@train_scst Toy.carriers Toy.scripted Toy.init)
    as [[t' shown]|] eqn:E; [|discriminate F].
  injection F as F. exists t', shown. rewrite F.
  split_and!; try done.
Qed.

Lemma scheduler_steps_per_pass_witness :
  ∃ t' shown,
    @train_scst Toy.carriers Toy.scripted
      (@with_sched_bound Toy.carriers false
         (@with_optim Toy.carriers (@rl_optimizer Toy.carriers) Toy.init))
    = Ok (t', shown)
    ∧ lr (@optim Toy.carriers t') = 5e-6%float
    ∧ @scheduler Toy.carriers t' = @scheduler Toy.carriers Toy.init
    ∧ @moments Toy.carriers (@optim Toy.carriers t') = 2.
Proof.
  assert (match @train_scst Toy.carriers Toy.scripted
                  (@with_sched_bound Toy.carriers false
                     (@with_optim Toy.carriers (@rl_optimizer Toy.carriers)
                        Toy.init)) with
          | Ok (t', _) => Some (@moments Toy.carriers (@optim Toy.carriers t'))
          | Raise _ => None
          end = Some 2) as F by (vm_compute; reflexivity).
  destruct (@train_scst Toy.carriers Toy.scripted
              (@with_sched_bound Toy.carriers false
                 (@with_optim Toy.carriers (@rl_optimizer Toy.carriers)
                    Toy.init))) as [[t' shown]|] eqn:E; [|discriminate F].
  injection F as F.
  destruct (@scheduler_steps_per_pass Toy.carriers Toy.scripted Toy.init)
    as (_ & _ & _ & R & _).
  destruct (R t' shown E) as [Hl Hs].
  exists t', shown. split; [reflexivity|]. split; [exact Hl|].
  split; [exact Hs|exact F].
Defined.

(** The claim of C10 fails on the code for a run resumed from the
    checkpoint of a finished run: the scripted run leaves the loop at its
    eleventh epoch with patience 5 in the last slot; [train] started again
    on that file persists, after one more epoch, a checkpoint that records
    patience 6. *)
Lemma resumed_finished_run_exceeds_threshold :
  let finished := scripted_train None 11 Toy.init in
  let disk := toy_fs (toy_trainer finished) in
  let resumed := scripted_train (Some last_slot) 1
                   (@with_fs Toy.carriers disk Toy.init) in
  toy_outcome finished = Exited
  ∧ (∃ e, toy_reports resumed = [e] ∧ @recorded Toy.carriers e 6 true)
  ∧ ¬ Forall (λ e, ∀ p u, @recorded Toy.carriers e p u → (0 ≤ p ≤ 5)%Z)
             (toy_reports resumed).
Proof.
  intros finished disk resumed.
  assert (toy_outcome finished = Exited) as X by (vm_compute; reflexivity).
  assert ((λ e, (@saved Toy.carriers e !! "patience",
                 @saved Toy.carriers e !! "use_rl")) <$> toy_reports resumed
          = [(Some (@VInt Toy.carriers 6), Some (@VBool Toy.carriers true))])
    as F by (vm_compute; reflexivity).
  destruct (toy_reports resumed) as [|e [|e' rest]]; try discriminate F.
  injection F as Fp Fu.
  assert (@recorded Toy.carriers e 6 true) as R by exact (conj Fp Fu).
  split; [exact X|]. split; [exists e; split; [reflexivity|exact R]|].
  intros A. apply Forall_cons_1 in A as [A _].
  specialize (A 6 true R). lia.
Qed.

Lemma persisted_patience_invariant_witness :
  (0 ≤ patience fresh_vars ≤ 4)%Z
  ∧ Forall (λ e, ∃ p u,
              @recorded Toy.carriers e p u
              ∧ (0 ≤ p ≤ 5)%Z
              ∧ (p = 5 → u = true ∧ exit_train (toy_decided e) = true)
              ∧ ¬ (u = false ∧ p = 5)
              ∧ (switch_to_rl (toy_decided e) = true →
                 best (toy_decided e) = false))
           (toy_reports
              (@train_loop Toy.carriers Toy.scripted 11 Toy.init fresh_vars)).
Proof.
  assert (0 ≤ patience fresh_vars ≤ 4)%Z as B by (simpl; lia).
  split; [exact B|].
  exact (@persisted_patience_invariant Toy.carriers Toy.scripted 11 Toy.init
           fresh_vars B).
Defined.

(** ** Further runs on explicit inputs *)

Example groupby_keys_example :
  groupby_keys ["a"; "a"; "dog"; "dog"; "dog"] = ["a"; "dog"]
  ∧ join_words (groupby_keys ["a"; "a"; "dog"; "dog"; "dog"]) = "a dog".
Proof. done. Qed.

(** The predictions of the toy model over a dataset of two samples. *)
Example get_predictions_example :
  match @get_predictions Toy.carriers Toy.steady (ToyExport.source _)
          ToyExport.dataset None false Toy.init with
  | Ok (_, [p1; p2]) =>
      @p_filename _ _ _ p1 = "1.jpg" ∧ @p_filename _ _ _ p2 = "22.jpg"
      ∧ @p_gens _ _ _ p1 !! "0_0" = Some ["a dog"]
      ∧ @p_gts _ _ _ p2 !! "1_0" = Some ["a dog"]
      ∧ @p_gts _ _ _ p2 !! "1_1" = None
      ∧ @p_scores _ _ _ p1 = None
  | _ => False
  end.
Proof. vm_compute. repeat (split; [reflexivity|]). reflexivity. Qed.

Lemma best_slot_tracks_best_score_witness :
  Exists (λ e, best (toy_decided e) = true)
         (toy_reports
            (@train_loop Toy.carriers Toy.scripted 3 Toy.init fresh_vars))
  ∧ @best_slot_current Toy.carriers Toy.scripted
      (toy_trainer
         (@train_loop Toy.carriers Toy.scripted 3 Toy.init fresh_vars))
      (toy_locals
         (@train_loop Toy.carriers Toy.scripted 3 Toy.init fresh_vars)).
Proof.
  assert ((λ e, best (toy_decided e)) <$>
            toy_reports
              (@train_loop Toy.carriers Toy.scripted 3 Toy.init fresh_vars)
          = [true; false; false]) as F by (vm_compute; reflexivity).
  assert (Exists (λ e, best (toy_decided e) = true)
            (toy_reports
               (@train_loop Toy.carriers Toy.scripted 3 Toy.init
                  fresh_vars))) as X.
  { destruct (toy_reports _) as [|e rest]; [discriminate F|].
    injection F as F _. by apply Exists_cons_hd. }
  split; [exact X|].
  exact (@best_slot_tracks_best_score Toy.carriers Toy.scripted 3 Toy.init
           fresh_vars (or_intror X)).
Defined.

Lemma resume_after_iteration_witness :
  ∃ t' v' r t1,
    scripted_epoch Toy.init fresh_vars = Ok (t', v', r)
    ∧ @train_init Toy.carriers (Some last_slot)
        (@with_fs Toy.carriers (toy_fs t') Toy.init)
      = Ok (t1, v')
    ∧ @epoch Toy.carriers t1 = 0
    ∧ @epoch Toy.carriers t' = 1.
Proof.
  assert (match scripted_epoch Toy.init fresh_vars with
          | Ok (_, _, r) => exit_train (toy_decided r)
          | Raise _ => true
          end = false) as X by (vm_compute; reflexivity).
  destruct (scripted_epoch Toy.init fresh_vars) as [[[t' v'] r]|] eqn:E;
    [|discriminate X].
  destruct (@resume_after_iteration Toy.carriers Toy.scripted Toy.init t'
              (@with_fs Toy.carriers (toy_fs t') Toy.init) fresh_vars v' r
              E eq_refl)
    as (t1 & I & _ & _ & _ & _ & E1 & E2).
  exists t', v', r, t1. split; [reflexivity|]. split; [exact I|].
  split; [exact E1|]. rewrite (E2 X), E1. reflexivity.
Defined.

Lemma resume_from_unusable_path_witness :
  let t := @with_fs Toy.carriers
             (<["saved_models/run" := Directory]>
                {["saved_models/junk.pth" := Garbage]}) Toy.init in
  scripted_train (Some "saved_models/run") 2 t
  = @train_loop Toy.carriers Toy.scripted 2 t fresh_vars
  ∧ toy_outcome (scripted_train (Some "saved_models/junk.pth") 2 t)
    = Raised (UnpicklingError "saved_models/junk.pth").
Proof.
  intros t.
  destruct (@resume_from_unusable_path Toy.carriers Toy.scripted
              "saved_models/run" 2 t) as [D _].
  destruct (@resume_from_unusable_path Toy.carriers Toy.scripted
              "saved_models/junk.pth" 2 t) as [_ G].
  split.
  - apply D. reflexivity.
  - apply G. reflexivity.
Defined.

Lemma load_checkpoint_success_witness :
  ∃ t1 t2 loaded c,
    toy_trainer (@train_loop Toy.carriers Toy.scripted 1 Toy.init fresh_vars)
    = t1
    ∧ @load_checkpoint Toy.carriers last_slot t1 = Ok (t2, Some loaded)
    ∧ toy_fs t1 !! last_slot = Some (Pickle c)
    ∧ loaded !! "patience" = c !! "patience"
    ∧ @optim Toy.carriers t2 = @optim Toy.carriers t1.
Proof.
  set (t1 := toy_trainer
               (@train_loop Toy.carriers Toy.scripted 1 Toy.init fresh_vars)).
  assert (match @load_checkpoint Toy.carriers last_slot t1 with
          | Ok (_, Some _) => true
          | _ => false
          end = true) as F by (vm_compute; reflexivity).
  destruct (@load_checkpoint Toy.carriers last_slot t1)
    as [[t2 [loaded|]]|] eqn:E; try discriminate F.
  destruct (@load_checkpoint_success Toy.carriers _ _ _ _ E)
    as (c & Hc & _ & Hd & Hl & Ho & _).
  exists t1, t2, loaded, c. split; [reflexivity|]. split; [exact E|].
  split; [exact Hc|]. split; [|exact Ho].
  apply Hl. rewrite Hd. set_solver.
Defined.

Lemma base_checkpoint_roundtrip_witness :
  Forall (λ k, (∅ : gmap string (@value Toy.carriers)) !! k = None)
         captured_keys
  ∧ (∃ t', @base_load_checkpoint Toy.carriers
             (@base_last_model_path Toy.carriers Toy.scripted)
             (@base_save_checkpoint Toy.carriers Toy.scripted ∅ Toy.init)
           = Ok (t', Some (@checkpoint_dict Toy.carriers ∅ Toy.init)))
  ∧ @load_checkpoint Toy.carriers
      (@base_last_model_path Toy.carriers Toy.scripted)
      (@base_save_checkpoint Toy.carriers Toy.scripted ∅ Toy.init)
    = Raise (KeyError "val_loss").
Proof.
  assert (Forall (λ k, (∅ : gmap string (@value Toy.carriers)) !! k = None)
            captured_keys) as C.
  { unfold captured_keys. repeat constructor. }
  destruct (@base_checkpoint_roundtrip Toy.carriers Toy.scripted Toy.init
              ∅ C) as [(t' & L & _) K].
  split; [exact C|]. split; [exists t'; exact L|].
  apply K. reflexivity.
Defined.

Lemma convert_results_first_match_witness :
  ∃ path out,
    @convert_results Toy.carriers Toy.scripted ToyExport.template
      ToyExport.results "public" = inr (path, out)
    ∧ path = "saved_models/m2_transformer_using_region/public_results.json"
    ∧ (λ o : gmap string json, o !! "captions") <$> out
      = [Some (JString "a cat"); Some (JString "a dog"); None].
Proof.
  assert (match @convert_results Toy.carriers Toy.scripted
                  ToyExport.template ToyExport.results "public" with
          | inr (_, out) => (λ o : gmap string json, o !! "captions") <$> out
          | inl _ => []
          end = [Some (JString "a cat"); Some (JString "a dog"); None])
    as F by (vm_compute; reflexivity).
  destruct (@convert_results Toy.carriers Toy.scripted ToyExport.template
              ToyExport.results "public") as [|[path out]] eqn:E;
    [discriminate F|].
  destruct (@convert_results_first_match Toy.carriers Toy.scripted _ _ _ _ _
              E) as [P _].
  exists path, out. split; [reflexivity|]. split; [|exact F].
  rewrite P. reflexivity.
Defined.

Lemma convert_results_keeps_template_witness :
  ∃ path out,
    @convert_results Toy.carriers Toy.scripted ToyExport.template
      ToyExport.results "public" = inr (path, out)
    ∧ length out = 3%nat
    ∧ @convert_results Toy.carriers Toy.scripted out ToyExport.results
        "public" = inr (path, out).
Proof.
  assert (match @convert_results Toy.carriers Toy.scripted
                  ToyExport.template ToyExport.results "public" with
          | inr _ => true
          | inl _ => false
          end = true) as F by (vm_compute; reflexivity).
  destruct (@convert_results Toy.carriers Toy.scripted ToyExport.template
              ToyExport.results "public") as [|[path out]] eqn:E;
    [discriminate F|].
  destruct (@convert_results_keeps_template Toy.carriers Toy.scripted _ _ _
              _ _ E) as (L & _ & I).
  exists path, out. split; [reflexivity|]. split; [exact L|exact I].
Defined.

Lemma no_improvement_stops_the_run_witness :
  let v := {| use_rl := false; best_val_cider := 1%float;
              best_test_cider := 0%float; patience := 0 |} in
  (0 ≤ patience v ≤ 4)%Z
  ∧ Forall (λ e, best (toy_decided e) = false)
           (toy_reports (@train_loop Toy.carriers Toy.scripted 12 Toy.init v))
  ∧ length (toy_reports
              (@train_loop Toy.carriers Toy.scripted 12 Toy.init v)) = 10%nat
  ∧ toy_outcome (@train_loop Toy.carriers Toy.scripted 12 Toy.init v)
    = Exited.
Proof.
  intros v.
  assert ((0 ≤ patience v ≤ 4)%Z) as B by (simpl; lia).
  assert ((λ e, best (toy_decided e)) <$>
            toy_reports (@train_loop Toy.carriers Toy.scripted 12 Toy.init v)
          = replicate 10 false) as F by (vm_compute; reflexivity).
  assert (toy_outcome (@train_loop Toy.carriers Toy.scripted 12 Toy.init v)
          = Exited) as X by (vm_compute; reflexivity).
  assert (Forall (λ e, best (toy_decided e) = false)
            (toy_reports
               (@train_loop Toy.carriers Toy.scripted 12 Toy.init v))) as A.
  { apply (proj1 (Forall_fmap (λ e, best (toy_decided e))
                      (λ b : bool, b = false) _)).
    rewrite F. repeat constructor. }
  destruct (@no_improvement_stops_the_run Toy.carriers Toy.scripted 12
              Toy.init v B A) as (_ & _ & L).
  split; [exact B|]. split; [exact A|]. split; [|exact X].
  specialize (L X). apply Nat2Z.inj. rewrite L. reflexivity.
Defined.

Lemma phase_switches_at_most_once_witness :
  let v := {| use_rl := true; best_val_cider := 0%float;
              best_test_cider := 0%float; patience := 0 |} in
  use_rl v = true
  ∧ Forall (λ e, use_rl (vars (toy_decided e)) = true
                 ∧ switch_to_rl (toy_decided e) = false)
           (toy_reports (@train_loop Toy.carriers Toy.scripted 3 Toy.init v))
  ∧ length (toy_reports
              (@train_loop Toy.carriers Toy.scripted 3 Toy.init v)) = 3%nat.
Proof.
  intros v.
  assert (length (toy_reports
                    (@train_loop Toy.carriers Toy.scripted 3 Toy.init v))
          = 3%nat) as L by (vm_compute; reflexivity).
  destruct (@phase_switches_at_most_once Toy.carriers Toy.scripted 3
              Toy.init v) as [R _].
  split; [reflexivity|]. split; [exact (R eq_refl)|exact L].
Defined.

Lemma epoch_counter_of_run_witness :
  ∃ e,
    toy_reports (@train_loop Toy.carriers Toy.scripted 3 Toy.init fresh_vars)
      !! 2%nat = Some e
    ∧ saved e !! "epoch" = Some (@VInt Toy.carriers 2).
Proof.
  assert (is_Some (toy_reports
                     (@train_loop Toy.carriers Toy.scripted 3 Toy.init
                        fresh_vars) !! 2%nat)) as [e E].
  { apply lookup_lt_is_Some.
    assert (length (toy_reports
                      (@train_loop Toy.carriers Toy.scripted 3 Toy.init
                         fresh_vars)) = 3%nat) as ->
      by (vm_compute; reflexivity).
    lia. }
  destruct (@epoch_counter_of_run Toy.carriers Toy.scripted 3 Toy.init
              fresh_vars) as [K _].
  exists e. split; [exact E|]. exact (K 2%nat e E).
Defined.

Lemma save_checkpoint_overwrites_last_slot_witness :
  let d := {["patience" := @VInt Toy.carriers 3]} in
  let t := @save_checkpoint Toy.carriers Toy.scripted d Toy.init in
  toy_fs t !! "saved_models/elsewhere.pth" = None
  ∧ ∃ c, toy_fs t !! last_slot = Some (Pickle c)
         ∧ c !! "patience" = Some (@VInt Toy.carriers 3).
Proof.
  intros d t.
  destruct (@save_checkpoint_overwrites_last_slot Toy.carriers Toy.scripted
              d d Toy.init) as (O & _ & K & _).
  split.
  - unfold t. rewrite (O "saved_models/elsewhere.pth"); [reflexivity|].
    vm_compute. discriminate.
  - apply (K "patience"). reflexivity.
Defined.

Lemma slots_are_distinct_files_witness :
  let d := @checkpoint_dict Toy.carriers ∅ Toy.init in
  let t := @save_checkpoint Toy.carriers Toy.scripted ∅ Toy.init in
  ∃ t', @copyfile Toy.carriers last_slot
          (@best_model_path Toy.carriers Toy.scripted) t = Ok t'
        ∧ toy_fs t' !! last_slot = Some (Pickle d)
        ∧ toy_fs t' !! @best_model_path Toy.carriers Toy.scripted
          = Some (Pickle d).
Proof.
  intros d t. eexists. split; [reflexivity|].
  destruct (@slots_are_distinct_files Toy.carriers Toy.scripted t
              (@with_fs Toy.carriers
                 (<[@best_model_path Toy.carriers Toy.scripted := Pickle d]>
                    (toy_fs t)) t) d) as [_ C].
  apply C; reflexivity.
Defined.

Lemma evaluation_on_empty_loader_witness :
  @evaluate_loss Toy.carriers Toy.scripted [] Toy.init
  = Raise ZeroDivisionError
  ∧ @train_epoch Toy.carriers ToyEmpty.collaborators Toy.init fresh_vars
    = Raise ZeroDivisionError.
Proof.
  split.
  - destruct (@evaluation_on_empty_loader Toy.carriers Toy.scripted []
                Toy.init fresh_vars) as [E _].
    destruct (E eq_refl) as [L _]. exact L.
  - destruct (@evaluation_on_empty_loader Toy.carriers ToyEmpty.collaborators
                [] Toy.init fresh_vars) as (_ & _ & E).
    apply E; [reflexivity|]. intros r. reflexivity.
Defined.

Lemma groupby_keys_collapses_runs_witness :
  adjacent_distinct ["a"; "dog"; "a"]
  ∧ groupby_keys ["a"; "dog"; "a"] = ["a"; "dog"; "a"].
Proof.
  assert (adjacent_distinct ["a"; "dog"; "a"]) as D.
  { simpl. split_and!; [discriminate|discriminate|exact I]. }
  destruct (groupby_keys_collapses_runs ["a"; "dog"; "a"])
    as (_ & _ & _ & F & _).
  split; [exact D|exact (F D)].
Defined.

Lemma scoring_entries_witness :
  (@collect_captions Toy.carriers Toy.steady [Toy.two_samples]
     {["steps" := 0]} [Toy.two_samples]).1 !! sample_key 0 1
  = Some ["a dog"]
  ∧ (@collect_captions Toy.carriers Toy.steady [Toy.two_samples]
       {["steps" := 0]} [Toy.two_samples]).2 !! sample_key 0 2
    = None.
Proof.
  pose proof (@scoring_entries Toy.carriers Toy.steady [Toy.two_samples]
                {["steps" := 0]} [Toy.two_samples] 0 1) as K1.
  pose proof (@scoring_entries Toy.carriers Toy.steady [Toy.two_samples]
                {["steps" := 0]} [Toy.two_samples] 0 2) as K2.
  cbv zeta in K1, K2.
  destruct K1 as (_ & G & _). destruct K2 as (_ & _ & R).
  split; [rewrite G|rewrite R]; reflexivity.
Defined.

Lemma get_predictions_records_witness :
  ∃ preds,
    @get_predictions Toy.carriers Toy.steady (ToyExport.source _)
      ToyExport.dataset None true Toy.init = Ok (Toy.init, preds)
    ∧ length preds = 2%nat.
Proof.
  pose proof (@get_predictions_records Toy.carriers Toy.steady
                (ToyExport.source _) ToyExport.dataset None true Toy.init)
    as R.
  assert (match @get_predictions Toy.carriers Toy.steady (ToyExport.source _)
                  ToyExport.dataset None true Toy.init with
          | Ok _ => true
          | Raise _ => false
          end = true) as F by (vm_compute; reflexivity).
  destruct (@get_predictions Toy.carriers Toy.steady (ToyExport.source _)
              ToyExport.dataset None true Toy.init) as [[t' preds]|];
    [|discriminate F].
  destruct R as (L & U & _).
  exists preds. rewrite U by (intros fname N; discriminate N).
  split; [reflexivity|exact L].
Defined.

Lemma convert_results_without_predictions_witness :
  @convert_results Toy.carriers Toy.scripted
    ((∅ : gmap string json) :: ToyExport.template) ToyExport.results "public"
  = inl (ConvertKeyError "id").
Proof.
  destruct (@convert_results_without_predictions Toy.carriers Toy.scripted
              ToyExport.template ∅
              {| e_filename := "1.jpg"; e_gens_values := [["a dog"]] |}
              (tail ToyExport.results) "public") as [_ K].
  apply K. reflexivity.
Defined.
